(** * HT16K33 LED display drivers (time_counter_on_display.py)

    A shallow embedding of the three driver classes of
    [time_counter_on_display.py]: the generic [HT16K33] controller, the
    4-digit 7-segment [HT16K33Segment] and the 4-digit 14-segment
    [HT16K33Segment14].  Python integers are [Z], the [bytearray] display
    buffer is a [list Z] whose items are checked to lie in [range(256)] when
    they are stored, strings are [string], and a method is a computation in
    a state-and-exception monad over the driver object.  Methods that
    [return self] return [tt].  Assertions are enabled; the I2C bus records
    every transaction written to it and never fails. *)

From Stdlib Require Import ZArith String Ascii QArith Lia DecimalString.
From stdpp Require Import base list.

Local Open Scope Z_scope.

(** ** Python runtime: exceptions, objects, the method monad *)

Inductive exn : Type :=
| AssertionError (msg : string)
| IndexError
| ValueError
| TypeError.

Inductive outcome (A : Type) : Type :=
| Return (a : A)
| Raise (e : exn).
Arguments Return {A} a.
Arguments Raise {A} e.

(** One I2C transaction: [i2c.writeto(address, payload)]. *)
Definition transaction : Type := Z * list Z.

(** The driver object.  [i2c] is the bus handle, represented by the trace of
    the transactions written to it so far; [blink_rate] does not exist until
    [set_blink_rate] assigns it; [is_rotated] belongs to the 7-segment class
    and [is_ht16k33] to the 14-segment class. *)
Record device : Type := Device {
  i2c : list transaction;
  address : Z;
  brightness : Z;
  flash_rate : Z;
  blink_rate : option Z;
  buffer : list Z;
  is_rotated : bool;
  is_ht16k33 : bool
}.

Definition with_i2c (s : device) (t : list transaction) : device :=
  Device t (address s) (brightness s) (flash_rate s) (blink_rate s)
         (buffer s) (is_rotated s) (is_ht16k33 s).
Definition with_address (s : device) (a : Z) : device :=
  Device (i2c s) a (brightness s) (flash_rate s) (blink_rate s)
         (buffer s) (is_rotated s) (is_ht16k33 s).
Definition with_brightness (s : device) (b : Z) : device :=
  Device (i2c s) (address s) b (flash_rate s) (blink_rate s)
         (buffer s) (is_rotated s) (is_ht16k33 s).
Definition with_blink_rate (s : device) (r : Z) : device :=
  Device (i2c s) (address s) (brightness s) (flash_rate s) (Some r)
         (buffer s) (is_rotated s) (is_ht16k33 s).
Definition with_buffer (s : device) (b : list Z) : device :=
  Device (i2c s) (address s) (brightness s) (flash_rate s) (blink_rate s)
         b (is_rotated s) (is_ht16k33 s).
Definition with_is_rotated (s : device) (r : bool) : device :=
  Device (i2c s) (address s) (brightness s) (flash_rate s) (blink_rate s)
         (buffer s) r (is_ht16k33 s).
Definition with_is_ht16k33 (s : device) (h : bool) : device :=
  Device (i2c s) (address s) (brightness s) (flash_rate s) (blink_rate s)
         (buffer s) (is_rotated s) h.

(** A method body: it runs on the object, returns or raises, and leaves the
    object in the state it had reached at that point. *)
Definition M (A : Type) : Type := device → outcome A * device.

#[export] Instance M_ret : MRet M := λ A a s, (Return a, s).
#[export] Instance M_bind : MBind M := λ A B f m s,
  match m s with
  | (Return a, s') => f a s'
  | (Raise e, s') => (Raise e, s')
  end.

Definition raise {A : Type} (e : exn) : M A := λ s, (Raise e, s).
Definition get {A : Type} (f : device → A) : M A := λ s, (Return (f s), s).
Definition modify (f : device → device) : M unit := λ s, (Return tt, f s).

(** [pass] *)
Definition skip : M unit := mret tt.

(** [assert cond, msg] *)
Definition assert (cond : bool) (msg : string) : M unit :=
  if cond then skip else raise (AssertionError msg).

(** [for x in l: st = body(x, st)], the loop-carried variables being [st]. *)
Fixpoint for_each {A St : Type} (l : list A) (body : A → St → M St) (st : St)
  : M St :=
  match l with
  | [] => mret st
  | x :: l' => st' ← body x st; for_each l' body st'
  end.

(** [range(lo, hi)] *)
Definition range (lo hi : Z) : list Z :=
  map (λ k, lo + Z.of_nat k) (seq 0 (Z.to_nat (hi - lo))).

(** ** Sequences: [bytearray] and [bytes] indexing *)

(** Python index normalisation: a negative index counts from the end. *)
Definition norm_index (len i : Z) : option nat :=
  let j := if i <? 0 then i + len else i in
  if (0 <=? j) && (j <? len) then Some (Z.to_nat j) else None.

(** [seq[i]] on a [bytes] constant or on the buffer. *)
Definition seq_getitem (l : list Z) (i : Z) : M Z :=
  match norm_index (Z.of_nat (length l)) i with
  | Some n =>
      match l !! n with
      | Some b => mret b
      | None => raise IndexError
      end
  | None => raise IndexError
  end.

(** [self.buffer[i]] *)
Definition getitem (i : Z) : M Z :=
  buf ← get buffer; seq_getitem buf i.

(** [self.buffer[i] = v]: the index is checked first, then the value has to
    be in [range(256)]. *)
Definition setitem (i v : Z) : M unit :=
  buf ← get buffer;
  match norm_index (Z.of_nat (length buf)) i with
  | Some n =>
      if (0 <=? v) && (v <? 256)
      then modify (λ s, with_buffer s (<[n := v]> buf))
      else raise ValueError
  | None => raise IndexError
  end.

(** [self.buffer[i] |= m] *)
Definition ior_item (i m : Z) : M unit :=
  b ← getitem i; setitem i (Z.lor b m).

(** [self.buffer[i] &= m] *)
Definition iand_item (i m : Z) : M unit :=
  b ← getitem i; setitem i (Z.land b m).

(** [bytearray(n)] *)
Definition bytearray (n : nat) : list Z := replicate n 0.

(** [x << y] on integers: a negative shift count raises. *)
Definition lshift (x y : Z) : M Z :=
  if y <? 0 then raise ValueError else mret (Z.shiftl x y).

(** ** Strings *)

Definition ord_ascii (c : ascii) : Z := Z.of_N (N_of_ascii c).

(** [ord(char)]: defined on strings of length one only. *)
Definition ord (char : string) : M Z :=
  match char with
  | String c EmptyString => mret (ord_ascii c)
  | _ => raise TypeError
  end.

Definition lower_ascii (c : ascii) : ascii :=
  let n := N_of_ascii c in
  if ((65 <=? n) && (n <=? 90))%N then ascii_of_N (n + 32) else c.

(** [char.lower()]; characters are 8-bit and only the ASCII capitals have
    a lowercase form. *)
Fixpoint lower (s : string) : string :=
  match s with
  | EmptyString => EmptyString
  | String c s' => String (lower_ascii c) (lower s')
  end.

(** [sub in s] on strings is substring containment. *)
Fixpoint str_in (sub s : string) : bool :=
  String.prefix sub s ||
  match s with
  | EmptyString => false
  | String _ s' => str_in sub s'
  end.

(** [str(n)] for an integer *)
Definition str (n : Z) : string := NilZero.string_of_int (Z.to_int n).

(** ** Numbers passed as a blink rate: an [int], or a [float] given by its
    exact value *)

Inductive pynum : Type :=
| PyInt (z : Z)
| PyFloat (q : Q).

Definition pynum_value (x : pynum) : Q :=
  match x with
  | PyInt z => inject_Z z
  | PyFloat q => q
  end.

(** [x == y] compares numbers by value. *)
Definition pynum_eqb (x y : pynum) : bool :=
  Qeq_bool (pynum_value x) (pynum_value y).

(** [x in t] for a tuple [t] of numbers *)
Definition pynum_in (x : pynum) (t : list pynum) : bool :=
  existsb (pynum_eqb x) t.

(** [x & y], [x << y], [x | y]: integers only. *)
Definition pynum_and (x : pynum) (y : Z) : M Z :=
  match x with
  | PyInt z => mret (Z.land z y)
  | PyFloat _ => raise TypeError
  end.

Definition pynum_lshift (x : pynum) (y : Z) : M Z :=
  match x with
  | PyInt z => if y <? 0 then raise ValueError else mret (Z.shiftl z y)
  | PyFloat _ => raise TypeError
  end.

(** ** class HT16K33 *)

Module HT16K33.

Definition HT16K33_GENERIC_DISPLAY_ON : Z := 0x81.
Definition HT16K33_GENERIC_DISPLAY_OFF : Z := 0x80.
Definition HT16K33_GENERIC_SYSTEM_ON : Z := 0x21.
Definition HT16K33_GENERIC_SYSTEM_OFF : Z := 0x20.
Definition HT16K33_GENERIC_DISPLAY_ADDRESS : Z := 0x00.
Definition HT16K33_GENERIC_CMD_BRIGHTNESS : Z := 0xE0.
Definition HT16K33_GENERIC_CMD_BLINK : Z := 0x81.

(** The class attributes an instance starts from; [i2c = None] is the empty
    trace. *)
Definition class_defaults : device :=
  Device [] 0 15 0 None [] false false.

(** [self.i2c.writeto(self.address, payload)] *)
Definition writeto (payload : list Z) : M unit :=
  modify (λ s, with_i2c s (i2c s ++ [(address s, payload)])).

(** [bytes(l)]: every item has to be in [range(256)]. *)
Definition bytes (l : list Z) : M (list Z) :=
  if forallb (λ b, (0 <=? b) && (b <? 256)) l then mret l
  else raise ValueError.

Definition _write_cmd (byte : Z) : M unit :=
  payload ← bytes [byte]; writeto payload.

Definition _render : M unit :=
  buf ← get buffer;
  let buffer := bytearray (length buf + 1) in
  let buffer := take 1 buffer ++ buf in
  let buffer := <[0%nat := 0x00]> buffer in
  payload ← bytes buffer; writeto payload.

Definition power_on : M unit :=
  _write_cmd HT16K33_GENERIC_SYSTEM_ON;;
  _write_cmd HT16K33_GENERIC_DISPLAY_ON.

Definition power_off : M unit :=
  _write_cmd HT16K33_GENERIC_DISPLAY_OFF;;
  _write_cmd HT16K33_GENERIC_SYSTEM_OFF.

Definition __init__ (i2c : list transaction) (i2c_address : Z) : M unit :=
  assert ((0x00 <=? i2c_address) && (i2c_address <? 0x80))
         "ERROR - Invalid I2C address in HT16K33()";;
  modify (λ s, with_i2c s i2c);;
  modify (λ s, with_address s i2c_address);;
  power_on.

Definition set_blink_rate (rate : pynum) : M unit :=
  assert (pynum_in rate [PyInt 0; PyFloat (1 # 2); PyInt 1; PyInt 2])
         "ERROR - Invalid blink rate set in set_blink_rate()";;
  r ← pynum_and rate 0x03;
  modify (λ s, with_blink_rate s r);;
  sh ← pynum_lshift rate 1;
  _write_cmd (Z.lor HT16K33_GENERIC_CMD_BLINK sh).

Definition set_brightness (brightness : Z) : M unit :=
  let brightness :=
    if (brightness <? 0) || (brightness >? 15) then 15 else brightness in
  modify (λ s, with_brightness s brightness);;
  _write_cmd (Z.lor HT16K33_GENERIC_CMD_BRIGHTNESS brightness).

Definition draw : M unit := _render.
Definition update : M unit := _render.

Definition clear : M unit :=
  n ← get (λ s, length (buffer s));
  for_each (range 0 (Z.of_nat n)) (λ i _, setitem i 0x00) tt.

End HT16K33.

(** ** class HT16K33Segment(HT16K33) *)

Module HT16K33Segment.
Export HT16K33.

Definition HT16K33_SEGMENT_COLON_ROW : Z := 0x04.
Definition HT16K33_SEGMENT_MINUS_CHAR : Z := 0x10.
Definition HT16K33_SEGMENT_DEGREE_CHAR : Z := 0x11.
Definition HT16K33_SEGMENT_SPACE_CHAR : Z := 0x12.

(** The positions of the segments within the buffer *)
Definition POS : list Z := [0; 2; 6; 8].

(** 0-9, A-F, minus, degree, space *)
Definition CHARSET : list Z :=
  [ 0x3F; 0x06; 0x5B; 0x4F; 0x66; 0x6D; 0x7D; 0x07;
    0x7F; 0x6F; 0x5F; 0x7C; 0x58; 0x5E; 0x7B; 0x71;
    0x40; 0x63; 0x00 ].

Definition __init__ (i2c : list transaction) (i2c_address : Z) : M unit :=
  modify (λ s, with_buffer s (bytearray 16));;
  modify (λ s, with_is_rotated s false);;
  HT16K33.__init__ i2c i2c_address.

(** [HT16K33Segment(i2c, i2c_address)] *)
Definition new (i2c : list transaction) (i2c_address : Z)
  : outcome unit * device :=
  __init__ i2c i2c_address class_defaults.

Definition rotate : M unit :=
  modify (λ s, with_is_rotated s (negb (is_rotated s))).

Definition set_colon (is_set : bool) : M unit :=
  setitem HT16K33_SEGMENT_COLON_ROW (if is_set then 0x02 else 0x00).

Definition set_glyph (glyph digit : Z) (has_dot : bool) : M unit :=
  assert ((0 <=? digit) && (digit <? 4))
         "ERROR - Invalid digit (0-3) set in set_glyph()";;
  assert ((0 <=? glyph) && (glyph <? 0x80))
         "ERROR - Invalid glyph (0x00-0x80) set in set_glyph()";;
  p ← seq_getitem POS digit;
  setitem p glyph;;
  if has_dot then p ← seq_getitem POS digit; ior_item p 0x80 else skip.

(** The chain of tests that resolves a (lowercased) string to its index in
    [CHARSET]; [0xFF] stands for "no index". *)
Definition char_index (char : string) : M Z :=
  let char_val := 0xFF in
  if String.eqb char "deg" then mret HT16K33_SEGMENT_DEGREE_CHAR
  else if String.eqb char "-" then mret HT16K33_SEGMENT_MINUS_CHAR
  else if String.eqb char " " then mret HT16K33_SEGMENT_SPACE_CHAR
  else if str_in char "abcdef" then o ← ord char; mret (o - 87)
  else if str_in char "0123456789" then o ← ord char; mret (o - 48)
  else mret char_val.

Definition set_character (char : string) (digit : Z) (has_dot : bool)
  : M unit :=
  assert ((0 <=? digit) && (digit <? 4))
         "ERROR - Invalid digit set in set_character()";;
  let char := lower char in
  char_val ← char_index char;
  assert (negb (char_val =? 0xFF))
         "ERROR - Invalid char string set in set_character()";;
  p ← seq_getitem POS digit;
  c ← seq_getitem CHARSET char_val;
  setitem p c;;
  if has_dot then p ← seq_getitem POS digit; ior_item p 0x80 else skip.

Definition set_number (number digit : Z) (has_dot : bool) : M unit :=
  assert ((0 <=? digit) && (digit <? 4))
         "ERROR - Invalid digit (0-3) set in set_number()";;
  assert ((0 <=? number) && (number <? 10))
         "ERROR - Invalid value (0-9) set in set_number()";;
  set_character (str number) digit has_dot.

(** The value [(a | b | c)] that the rotation loop of [draw] computes from a
    digit byte [a]. *)
Definition rotate_digit (a : Z) : Z :=
  let b := Z.shiftl (Z.land a 0x07) 3 in
  let c := Z.shiftr (Z.land a 0x38) 3 in
  let a := Z.land a 0xC0 in
  Z.lor (Z.lor a b) c.

(** The body of the [if self.is_rotated:] block of [draw]. *)
Definition rotate_buffer : M unit :=
  (* Swap digits 0,3 and 1,2 *)
  p0 ← seq_getitem POS 0; a ← getitem p0;
  p3 ← seq_getitem POS 3; x ← getitem p3;
  p0 ← seq_getitem POS 0; setitem p0 x;;
  p3 ← seq_getitem POS 3; setitem p3 a;;
  p1 ← seq_getitem POS 1; a ← getitem p1;
  p2 ← seq_getitem POS 2; x ← getitem p2;
  p1 ← seq_getitem POS 1; setitem p1 x;;
  p2 ← seq_getitem POS 2; setitem p2 a;;
  (* Rotate each digit *)
  for_each (range 0 4) (λ i _,
    p ← seq_getitem POS i; a ← getitem p;
    let a := rotate_digit a in
    p ← seq_getitem POS i;
    setitem p a) tt.

Definition draw : M unit :=
  get is_rotated ≫= λ r : bool,
  (if r then rotate_buffer else skip);;
  _render.

End HT16K33Segment.

(** ** class HT16K33Segment14(HT16K33) *)

Module HT16K33Segment14.
Export HT16K33.

Definition HT16K33_SEG14_DP_VALUE : Z := 0x4000.
Definition HT16K33_SEG14_BLANK_CHAR : Z := 62.
Definition HT16K33_SEG14_DQUOTE_CHAR : Z := 64.
Definition HT16K33_SEG14_QUESTN_CHAR : Z := 65.
Definition HT16K33_SEG14_DOLLAR_CHAR : Z := 66.
Definition HT16K33_SEG14_PRCENT_CHAR : Z := 67.
Definition HT16K33_SEG14_DEGREE_CHAR : Z := 68.
Definition HT16K33_SEG14_STAR_CHAR : Z := 72.
Definition HT16K33_SEG14_PLUS_CHAR : Z := 73.
Definition HT16K33_SEG14_MINUS_CHAR : Z := 74.
Definition HT16K33_SEG14_DIVSN_CHAR : Z := 75.
Definition HT16K33_SEG14_CHAR_COUNT : Z := 76.

Definition VK16K33_SEG14_COLON_BYTE : Z := 1.
Definition VK16K33_SEG14_DECIMAL_BYTE : Z := 3.

(** Character matrices for 0-9, A-Z, a-z, space and various symbols *)
Definition CHARSET : list Z :=
  [ 0x24; 0x3F; 0x00; 0x06; 0x00; 0xDB; 0x00; 0x8F;
    0x00; 0xE6; 0x00; 0xED; 0x00; 0xFD; 0x00; 0x07;
    0x00; 0xFF; 0x00; 0xEF; 0x00; 0xF7; 0x12; 0x8F;
    0x00; 0x39; 0x12; 0x0F; 0x00; 0x79; 0x00; 0x71;
    0x00; 0xBD; 0x00; 0xF6; 0x12; 0x09; 0x00; 0x1E;
    0x0C; 0x70; 0x00; 0x38; 0x05; 0x36; 0x09; 0x36;
    0x00; 0x3F; 0x00; 0xF3; 0x08; 0x3F; 0x08; 0xF3;
    0x00; 0xED; 0x12; 0x01; 0x00; 0x3E; 0x24; 0x30;
    0x28; 0x36; 0x2D; 0x00; 0x15; 0x00; 0x24; 0x09;
    0x10; 0x58; 0x08; 0x78; 0x00; 0xD8; 0x20; 0x8E;
    0x20; 0x58; 0x24; 0x80; 0x04; 0x8E; 0x10; 0x70;
    0x10; 0x00; 0x08; 0x06; 0x1E; 0x00; 0x20; 0x30;
    0x10; 0xD4; 0x10; 0x50; 0x00; 0xDC; 0x01; 0x70;
    0x04; 0x86; 0x00; 0x50; 0x08; 0x88; 0x00; 0x78;
    0x00; 0x1C; 0x08; 0x04; 0x28; 0x14; 0x2D; 0x00;
    0x25; 0x00; 0x20; 0x48; 0x00; 0x00; 0x00; 0x06;
    0x02; 0x20; 0x10; 0x83; 0x12; 0xED; 0x24; 0x24;
    0x00; 0xE3; 0x04; 0x00; 0x09; 0x00; 0x20; 0x00;
    0x3F; 0xC0; 0x12; 0xC0; 0x00; 0xC0; 0x24; 0x00 ].

Definition __init__ (i2c : list transaction) (i2c_address : Z)
           (is_ht16k33 : bool) : M unit :=
  modify (λ s, with_buffer s (bytearray 16));;
  modify (λ s, with_is_ht16k33 s is_ht16k33);;
  HT16K33.__init__ i2c i2c_address.

(** [HT16K33Segment14(i2c, i2c_address, is_ht16k33)] *)
Definition new (i2c : list transaction) (i2c_address : Z)
           (is_ht16k33 : bool) : outcome unit * device :=
  __init__ i2c i2c_address is_ht16k33 class_defaults.

(** Truth value of [value & (1 << i)] *)
Definition bit_set (value i : Z) : bool :=
  negb (Z.land value (Z.shiftl 1 i) =? 0).

(** One turn of the VK16K33 loop; [a] and [d] are carried from turn to
    turn. *)
Definition vk16k33_turn (value digit : Z) (i : Z) (st : Z * Z)
  : M (Z * Z) :=
  let '(a, d) := st in
  (if bit_set value i then
     b ← getitem a; m ← lshift d digit; setitem a (Z.lor b m)
   else skip);;
  let a := a + 2 in
  if i =? 6 then mret (0, 16) else mret (a, d).

(** What [_set_digit] makes of [msb] for the HT16K33: bits 11 and 13 of the
    value, which are bits 3 and 5 of its MSB, change places. *)
Definition swap_b11_b13 (msb : Z) : Z :=
  let b11 := Z.land msb 0x08 in
  let b13 := Z.land msb 0x20 in
  let msb := Z.land msb 0xD7 in
  let msb := Z.lor msb (Z.shiftl b11 2) in
  let msb := Z.lor msb (Z.shiftr b13 2) in
  msb.

Definition _set_digit (value digit : Z) (has_dot : bool) : M unit :=
  get is_ht16k33 ≫= λ h : bool,
  if h then
    let value :=
      if has_dot then Z.lor value HT16K33_SEG14_DP_VALUE else value in
    (* Output for HT16K33: swap bits 11 and 13,
       and sequence becomes LSB, MSB *)
    let msb := Z.land (Z.shiftr value 8) 0xFF in
    let msb := swap_b11_b13 msb in
    setitem (Z.shiftl digit 1 + 1) msb;;
    setitem (Z.shiftl digit 1) (Z.land value 0xFF)
  else
    (* Output for VK16K33 *)
    for_each (range 0 16) (vk16k33_turn value digit) (0, 1);;
    mret tt.

Definition set_glyph (glyph digit : Z) (has_dot : bool) : M unit :=
  assert ((0 <=? digit) && (digit <? 4))
         "ERROR - Invalid digit (0-3) set in set_glyph()";;
  assert ((0 <=? glyph) && (glyph <? 0xFFFF))
         "ERROR - Invalid glyph (0x0000-0xFFFF) set in set_glyph()";;
  _set_digit glyph digit has_dot.

(** [(self.CHARSET[code << 1] << 8) | self.CHARSET[(code << 1) + 1]] *)
Definition charset_glyph (code : Z) : M Z :=
  hi ← seq_getitem CHARSET (Z.shiftl code 1);
  lo ← seq_getitem CHARSET (Z.shiftl code 1 + 1);
  mret (Z.lor (Z.shiftl hi 8) lo).

(** The chain of tests that resolves a string to its index in [CHARSET];
    [0xFFFF] stands for "no index". *)
Definition char_index (char : string) : M Z :=
  let char_val := 0xFFFF in
  if String.eqb char "-" then mret HT16K33_SEG14_MINUS_CHAR
  else if String.eqb char "*" then mret HT16K33_SEG14_STAR_CHAR
  else if String.eqb char "+" then mret HT16K33_SEG14_PLUS_CHAR
  else if String.eqb char " " then mret HT16K33_SEG14_BLANK_CHAR
  else if String.eqb char "/" then mret HT16K33_SEG14_DIVSN_CHAR
  else if String.eqb char "$" then mret HT16K33_SEG14_DOLLAR_CHAR
  else if String.eqb char ":" then mret HT16K33_SEG14_DQUOTE_CHAR
  else if str_in char "0123456789" then o ← ord char; mret (o - 48)
  else if str_in char "ABCDEFGHIJKLMNOPQRSTUVWXYZ" then
    o ← ord char; mret (o - 55)
  else if str_in char "abcdefghijklmnopqrstuvwxyz" then
    o ← ord char; mret (o - 61)
  else mret char_val.

(** The assertion of [set_character]; its message is built, with
    [ord(char)], only when the assertion fails. *)
Definition assert_char (char_val : Z) (char : string) : M unit :=
  if negb (char_val =? 0xFFFF) then skip
  else
    o ← ord char;
    raise (AssertionError
             ("ERROR - Invalid char string set in set_character() "
              ++ char ++ " (" ++ str o ++ ")")%string).

Definition set_character (char : string) (digit : Z) (has_dot : bool)
  : M unit :=
  assert ((0 <=? digit) && (digit <? 4))
         "ERROR - Invalid digit set in set_character()";;
  char_val ← char_index char;
  assert_char char_val char;;
  g ← charset_glyph char_val;
  _set_digit g digit has_dot.

Definition set_number (number digit : Z) (has_dot : bool) : M unit :=
  assert ((0 <=? digit) && (digit <? 4))
         "ERROR - Invalid digit (0-3) set in set_number()";;
  assert ((0 <=? number) && (number <? 10))
         "ERROR - Invalid value (0-9) set in set_number()";;
  set_character (str number) digit has_dot.

Definition set_code (code digit : Z) (has_dot : bool) : M unit :=
  assert ((0 <=? digit) && (digit <? 4))
         "ERROR - Invalid digit (0-3) set in set_code()";;
  assert ((0 <=? code) && (code <? HT16K33_SEG14_CHAR_COUNT))
         ("ERROR - Invalid code (0-" ++ str (HT16K33_SEG14_CHAR_COUNT - 1)
          ++ ") set in set_code()")%string;;
  g ← charset_glyph code;
  _set_digit g digit has_dot.

Definition set_colon (is_on : bool) : M unit :=
  get is_ht16k33 ≫= λ h : bool,
  (* This doesn't work on the HT16K33 *)
  if h then skip
  else if is_on then ior_item VK16K33_SEG14_COLON_BYTE 0x01
  else iand_item VK16K33_SEG14_COLON_BYTE 0xFE.

Definition set_decimal (is_on : bool) : M unit :=
  get is_ht16k33 ≫= λ h : bool,
  (* This doesn't work on the HT16K33 *)
  if h then skip
  else if is_on then ior_item VK16K33_SEG14_DECIMAL_BYTE 0x01
  else iand_item VK16K33_SEG14_DECIMAL_BYTE 0x7F.

End HT16K33Segment14.

(** * Specification-level notions *)

(** The display buffer is a [bytearray(16)]: sixteen items in [range(256)]. *)
Definition is_byte (b : Z) : Prop := 0 ≤ b < 256.

Definition wf_buffer (buf : list Z) : Prop :=
  length buf = 16%nat ∧ Forall is_byte buf.

(** A computation that never changes the object. *)
Definition read_only {A : Type} (m : M A) : Prop := ∀ s, (m s).2 = s.

(** Where bit [n] of a byte comes from when bits 3 and 5 are exchanged. *)
Definition exchange_3_5 (n : Z) : Z :=
  if n =? 3 then 5 else if n =? 5 then 3 else n.

(** Where bit [n] of a byte comes from when the bit groups [0:3) and [3:6)
    are exchanged, each moved by three positions. *)
Definition exchange_groups (n : Z) : Z :=
  if n <? 3 then n + 3 else if n <? 6 then n - 3 else n.

(** [f] sends bytes to bytes and takes bit [n] of its result from bit
    [src n] of its argument; a check over one byte and over all of them. *)
Definition permutes_bits_at (f : Z → Z) (src : Z → Z) (b : Z) : bool :=
  (0 <=? f b) && (f b <? 256)
  && forallb (λ n, Bool.eqb (Z.testbit (f b) n) (Z.testbit b (src n)))
             (range 0 8).

Definition permutes_bits (f : Z → Z) (src : Z → Z) : bool :=
  forallb (permutes_bits_at f src) (range 0 256).

(** The buffer after the layout transform of a rotated [draw]: the digit
    bytes at [POS[0]], [POS[3]] and at [POS[1]], [POS[2]] change places, and
    each has its bit groups exchanged. *)
Definition rotated (buf : list Z) : list Z :=
  <[8%nat := HT16K33Segment.rotate_digit (buf !!! 0%nat)]>
    (<[6%nat := HT16K33Segment.rotate_digit (buf !!! 2%nat)]>
       (<[2%nat := HT16K33Segment.rotate_digit (buf !!! 6%nat)]>
          (<[0%nat := HT16K33Segment.rotate_digit (buf !!! 8%nat)]> buf))).

(** The index sequence of the VK16K33 digit writer: the values of [i], [a]
    and [d_mult] turn by turn.  It starts from [a = 0], [d_mult = 1]; [a]
    grows by two each turn; right after turn [i = 6], [a] is reset to 0 and
    [d_mult] becomes 16. *)
Fixpoint index_sequence_from (n : nat) (i a d_mult : Z) : list (Z * Z * Z) :=
  match n with
  | O => []
  | S n' =>
      (i, a, d_mult)
        :: (if i =? 6 then index_sequence_from n' (i + 1) 0 16
            else index_sequence_from n' (i + 1) (a + 2) d_mult)
  end.

Definition index_sequence : list (Z * Z * Z) := index_sequence_from 16 0 0 1.

(** [a] and [d_mult] after the [n] turns that start at [i]. *)
Fixpoint sequence_end (n : nat) (i a d_mult : Z) : Z * Z :=
  match n with
  | O => (a, d_mult)
  | S n' =>
      if i =? 6 then sequence_end n' (i + 1) 0 16
      else sequence_end n' (i + 1) (a + 2) d_mult
  end.

(** What one turn of the sequence prescribes: if bit [i] of [v] is set then
    [buffer[a] |= d_mult << digit]. *)
Definition prescribed_turn (v digit : Z) (buf : list Z) (t : Z * Z * Z)
  : list Z :=
  let '(i, a, d_mult) := t in
  if Z.testbit v i
  then <[Z.to_nat a := Z.lor (buf !!! Z.to_nat a) (Z.shiftl d_mult digit)]> buf
  else buf.

(** The buffer the whole sequence prescribes. *)
Definition prescribed (v digit : Z) (buf : list Z) : list Z :=
  foldl (prescribed_turn v digit) buf index_sequence.

(** A turn the buffer can take: when its bit is set, its index is inside the
    buffer and its marker is a byte. *)
Definition turn_ok (v digit : Z) (t : Z * Z * Z) : Prop :=
  let '(i, a, d_mult) := t in
  0 ≤ i ∧ (Z.testbit v i = true → 0 ≤ a < 16 ∧ is_byte (Z.shiftl d_mult digit)).

(** The marker bits one turn ORs into byte [j], and those of a run of
    turns. *)
Definition turn_mask (v digit : Z) (j : nat) (t : Z * Z * Z) : Z :=
  let '(i, a, d_mult) := t in
  if (Z.to_nat a =? j)%nat && Z.testbit v i then Z.shiftl d_mult digit else 0.

Definition turns_mask (v digit : Z) (j : nat) (l : list (Z * Z * Z)) : Z :=
  foldr (λ t m, Z.lor (turn_mask v digit j t) m) 0 l.

(** The bit-plane layout in closed form: byte [2k] of the buffer takes the
    marker [1 << digit] for bit [k] of the glyph (for [k < 7]) and the marker
    [16 << digit] for bit [k + 7]; the bytes at odd offsets take nothing. *)
Definition plane_mask (v digit : Z) (j : nat) : Z :=
  if Nat.odd j then 0
  else
    let k := Z.of_nat (j / 2) in
    Z.lor (if (k <? 7) && Z.testbit v k then Z.shiftl 1 digit else 0)
          (if Z.testbit v (k + 7) then Z.shiftl 16 digit else 0).

(** The charset index the specification gives a string on the 7-segment
    driver, once lowercased: "deg" is the degree symbol, '-' the minus,
    ' ' the space, 'a'-'f' are 10-15 and '0'-'9' are 0-9; nothing else has
    one. *)
Definition lowercase_index (char : string) : option Z :=
  if String.eqb char "deg" then Some 0x11
  else if String.eqb char "-" then Some 0x10
  else if String.eqb char " " then Some 0x12
  else
    match char with
    | String c EmptyString =>
        let n := ord_ascii c in
        if (97 <=? n) && (n <=? 102) then Some (n - 97 + 10)
        else if (48 <=? n) && (n <=? 57) then Some (n - 48)
        else None
    | _ => None
    end.

Definition spec_index (char : string) : option Z :=
  lowercase_index (lower char).

(** The charset index the specification gives a string on the 14-segment
    driver: the symbols [- * + space / $ :], the digits, 'A'-'Z' (10-35) and
    'a'-'z' (36-61). *)
Definition spec_index14 (char : string) : option Z :=
  if String.eqb char "-" then Some 74
  else if String.eqb char "*" then Some 72
  else if String.eqb char "+" then Some 73
  else if String.eqb char " " then Some 62
  else if String.eqb char "/" then Some 75
  else if String.eqb char "$" then Some 66
  else if String.eqb char ":" then Some 64
  else
    match char with
    | String c EmptyString =>
        let n := ord_ascii c in
        if (48 <=? n) && (n <=? 57) then Some (n - 48)
        else if (65 <=? n) && (n <=? 90) then Some (n - 65 + 10)
        else if (97 <=? n) && (n <=? 122) then Some (n - 97 + 36)
        else None
    | _ => None
    end.

(** A computation that changes nothing of the object but its buffer, and
    leaves a well-formed buffer well-formed - whether it returns or raises. *)
Definition buffer_only {A : Type} (m : M A) : Prop :=
  ∀ s, wf_buffer (buffer s) →
       ∃ buf', (m s).2 = with_buffer s buf' ∧ wf_buffer buf'.

(** * Properties *)

Import HT16K33.

(** ** Running monadic code *)

Lemma bind_return {A B : Type} (m : M A) (f : A → M B) s a s' :
  m s = (Return a, s') → (m ≫= f) s = f a s'.
Proof. intros H. unfold mbind, M_bind. now rewrite H. Qed.

Lemma bind_raise {A B : Type} (m : M A) (f : A → M B) s e s' :
  m s = (Raise e, s') → (m ≫= f) s = (Raise e, s').
Proof. intros H. unfold mbind, M_bind. now rewrite H. Qed.

Lemma assert_true c msg s : c = true → assert c msg s = (Return tt, s).
Proof. now intros ->. Qed.

Lemma assert_false c msg s :
  c = false → assert c msg s = (Raise (AssertionError msg), s).
Proof. now intros ->. Qed.

Lemma in_range_true lo hi x : lo ≤ x < hi → (lo <=? x) && (x <? hi) = true.
Proof. intros. apply andb_true_iff. split; [apply Z.leb_le | apply Z.ltb_lt]; lia. Qed.

Lemma in_range_false lo hi x :
  ¬ (lo ≤ x < hi) → (lo <=? x) && (x <? hi) = false.
Proof.
  intros H. apply andb_false_iff.
  destruct (Z.leb_spec lo x); [right | now left].
  apply Z.ltb_ge. lia.
Qed.

Lemma read_only_bind {A B : Type} (m : M A) (f : A → M B) :
  read_only m → (∀ a, read_only (f a)) → read_only (m ≫= f).
Proof.
  intros Hm Hf s. unfold mbind, M_bind. specialize (Hm s).
  destruct (m s) as [[a|e] s']; simpl in *; subst; [apply Hf | done].
Qed.

Lemma read_only_ret {A : Type} (a : A) : read_only (mret a).
Proof. done. Qed.

Lemma read_only_raise {A : Type} e : read_only (@raise A e).
Proof. done. Qed.

Lemma read_only_assert c msg : read_only (assert c msg).
Proof. now destruct c. Qed.

Lemma read_only_ord char : read_only (ord char).
Proof. now destruct char as [|c [|]]. Qed.

Lemma read_only_seq_getitem l i : read_only (seq_getitem l i).
Proof.
  unfold seq_getitem. destruct (norm_index _ _) as [n|]; [|done].
  now destruct (l !! n).
Qed.

(** When a read-only computation is followed by [f], the object reaches [f]
    as it was. *)
Lemma bind_read_only {A B : Type} (m : M A) (f : A → M B) s :
  read_only m →
  (m ≫= f) s = match (m s).1 with Return a => f a s | Raise e => (Raise e, s) end.
Proof.
  intros Hm. unfold mbind, M_bind. specialize (Hm s).
  destruct (m s) as [[a|e] s']; simpl in *; now subst.
Qed.

(** ** The generic controller: power-on sequence and blink rate *)

Lemma write_cmd_run byte s :
  0 ≤ byte < 256 →
  _write_cmd byte s = (Return tt, with_i2c s (i2c s ++ [(address s, [byte])])).
Proof.
  intros Hb. unfold _write_cmd, bytes. cbn [forallb].
  rewrite (in_range_true 0 256 byte Hb). reflexivity.
Qed.

Lemma power_on_run s :
  power_on s
  = (Return tt, with_i2c s (i2c s ++ [(address s, [0x21]); (address s, [0x81])])).
Proof.
  unfold power_on.
  rewrite (bind_return _ _ s tt _ (write_cmd_run 0x21 s ltac:(lia))).
  rewrite write_cmd_run by (unfold HT16K33_GENERIC_DISPLAY_ON; lia).
  unfold with_i2c. cbn. now rewrite <- app_assoc.
Qed.

Lemma init_run bus addr s :
  0 ≤ addr < 0x80 →
  HT16K33.__init__ bus addr s
  = (Return tt,
     with_i2c (with_address s addr) (bus ++ [(addr, [0x21]); (addr, [0x81])])).
Proof.
  intros Ha. unfold HT16K33.__init__.
  rewrite (bind_return _ _ s tt s) by (apply assert_true, in_range_true, Ha).
  rewrite (bind_return _ _ s tt (with_i2c s bus)) by reflexivity.
  rewrite (bind_return _ _ _ tt (with_address (with_i2c s bus) addr))
    by reflexivity.
  now rewrite power_on_run.
Qed.

(** C7, as the claim states it, fails: the bytes a freshly constructed
    driver has put on the bus are not 0x20 followed by 0x80. *)
Lemma power_on_not_0x20_0x80 :
  i2c (HT16K33Segment14.new [] 0x70 false).2 ≠ [(0x70, [0x20]); (0x70, [0x80])].
Proof. vm_compute. discriminate. Qed.

(** C7 (amended): [power_on] writes exactly two single-byte commands, the
    system-on byte 0x21 and then the display-on byte 0x81 (the constants pair
    display-on/off = 0x81/0x80 and system-on/off = 0x21/0x20), and a
    constructor runs it exactly once: the bus of a new driver of either class
    holds these two transactions, in this order, after what it held before. *)
Theorem power_on_sequence (bus : list transaction) (addr : Z) (h : bool) :
  0 ≤ addr < 0x80 →
  (HT16K33_GENERIC_SYSTEM_ON, HT16K33_GENERIC_SYSTEM_OFF) = (0x21, 0x20)
  ∧ (HT16K33_GENERIC_DISPLAY_ON, HT16K33_GENERIC_DISPLAY_OFF) = (0x81, 0x80)
  ∧ (∀ s, power_on s
          = (Return tt,
             with_i2c s (i2c s ++ [(address s, [0x21]); (address s, [0x81])])))
  ∧ HT16K33Segment.new bus addr
    = (Return tt,
       Device (bus ++ [(addr, [0x21]); (addr, [0x81])]) addr 15 0 None
              (bytearray 16) false false)
  ∧ HT16K33Segment14.new bus addr h
    = (Return tt,
       Device (bus ++ [(addr, [0x21]); (addr, [0x81])]) addr 15 0 None
              (bytearray 16) false h).
Proof.
  intros Ha. split; [done|]. split; [done|]. split; [apply power_on_run|].
  split.
  - unfold HT16K33Segment.new, HT16K33Segment.__init__.
    erewrite bind_return by reflexivity.
    erewrite bind_return by reflexivity.
    now rewrite init_run.
  - unfold HT16K33Segment14.new, HT16K33Segment14.__init__.
    erewrite bind_return by reflexivity.
    erewrite bind_return by reflexivity.
    now rewrite init_run.
Qed.

Lemma power_on_sequence_witness :
  0 ≤ 0x70 < 0x80
  ∧ HT16K33Segment14.new [] 0x70 false
    = (Return tt,
       Device [(0x70, [0x21]); (0x70, [0x81])] 0x70 15 0 None
              (bytearray 16) false false).
Proof.
  split; [lia|]. apply (power_on_sequence [] 0x70 false). lia.
Defined.

(** C9 at the rate 0.5: the assertion admits it, as it admits 0, 1 and 2,
    and [rate & 0x03] then raises on the float: the call fails with nothing
    written to the bus and nothing changed in the object. *)
Theorem set_blink_rate_half_raises (s : device) :
  pynum_in (PyFloat (1 # 2)) [PyInt 0; PyFloat (1 # 2); PyInt 1; PyInt 2]
  = true
  ∧ assert (pynum_in (PyFloat (1 # 2))
                     [PyInt 0; PyFloat (1 # 2); PyInt 1; PyInt 2])
           "ERROR - Invalid blink rate set in set_blink_rate()" s
    = (Return tt, s)
  ∧ pynum_and (PyFloat (1 # 2)) 0x03 s = (Raise TypeError, s)
  ∧ set_blink_rate (PyFloat (1 # 2)) s = (Raise TypeError, s).
Proof.
  split; [reflexivity|]. split; [reflexivity|]. split; [reflexivity|].
  unfold set_blink_rate.
  rewrite (bind_return _ _ s tt s) by reflexivity.
  now apply bind_raise.
Qed.

(** The integer rates 0, 1 and 2 are transmitted as [0x81 | rate << 1]. *)
Lemma set_blink_rate_int (rate : Z) (s : device) :
  rate = 0 ∨ rate = 1 ∨ rate = 2 →
  set_blink_rate (PyInt rate) s
  = (Return tt,
     with_i2c (with_blink_rate s rate)
              (i2c s ++ [(address s, [Z.lor 0x81 (Z.shiftl rate 1)])])).
Proof. intros [-> | [-> | ->]]; reflexivity. Qed.

(** A rate that equals none of 0, 0.5, 1, 2 fails the assertion, and the
    object, its bus included, is as before. *)
Lemma set_blink_rate_invalid (rate : pynum) (s : device) :
  pynum_in rate [PyInt 0; PyFloat (1 # 2); PyInt 1; PyInt 2] = false →
  set_blink_rate rate s
  = (Raise (AssertionError "ERROR - Invalid blink rate set in set_blink_rate()"), s).
Proof.
  intros H. unfold set_blink_rate.
  now rewrite (bind_raise _ _ s _ s (assert_false _ _ s H)).
Qed.

(** ** The display buffer *)

Lemma norm_index_nonneg len i :
  0 ≤ i < len → norm_index len i = Some (Z.to_nat i).
Proof.
  intros H. unfold norm_index.
  destruct (Z.ltb_spec i 0); [lia|]. now rewrite in_range_true.
Qed.

Lemma norm_index_beyond len i : 0 ≤ len ≤ i → norm_index len i = None.
Proof.
  intros H. unfold norm_index.
  destruct (Z.ltb_spec i 0); [lia|]. rewrite in_range_false; [done | lia].
Qed.

Lemma seq_getitem_run l i b s :
  0 ≤ i → l !! Z.to_nat i = Some b → seq_getitem l i s = (Return b, s).
Proof.
  intros Hi Hb. unfold seq_getitem.
  rewrite norm_index_nonneg, Hb; [done|].
  apply lookup_lt_Some in Hb. lia.
Qed.

Lemma getitem_run i b s :
  0 ≤ i → buffer s !! Z.to_nat i = Some b → getitem i s = (Return b, s).
Proof.
  intros Hi Hb. unfold getitem.
  rewrite (bind_return _ _ s (buffer s) s) by reflexivity.
  now apply seq_getitem_run.
Qed.

Lemma getitem_beyond i s :
  Z.of_nat (length (buffer s)) ≤ i → getitem i s = (Raise IndexError, s).
Proof.
  intros Hi. unfold getitem.
  rewrite (bind_return _ _ s (buffer s) s) by reflexivity.
  unfold seq_getitem. rewrite norm_index_beyond; [done | lia].
Qed.

Lemma setitem_run i v s :
  0 ≤ i < Z.of_nat (length (buffer s)) → is_byte v →
  setitem i v s = (Return tt, with_buffer s (<[Z.to_nat i := v]> (buffer s))).
Proof.
  intros Hi Hv. unfold setitem.
  rewrite (bind_return _ _ s (buffer s) s) by reflexivity.
  rewrite norm_index_nonneg by done. now rewrite in_range_true.
Qed.

Lemma ior_item_run i m b s :
  0 ≤ i → buffer s !! Z.to_nat i = Some b → is_byte (Z.lor b m) →
  ior_item i m s
  = (Return tt, with_buffer s (<[Z.to_nat i := Z.lor b m]> (buffer s))).
Proof.
  intros Hi Hb Hv. unfold ior_item.
  rewrite (bind_return _ _ s b s) by now apply getitem_run.
  apply setitem_run; [|done]. apply lookup_lt_Some in Hb. lia.
Qed.

Lemma iand_item_run i m b s :
  0 ≤ i → buffer s !! Z.to_nat i = Some b → is_byte (Z.land b m) →
  iand_item i m s
  = (Return tt, with_buffer s (<[Z.to_nat i := Z.land b m]> (buffer s))).
Proof.
  intros Hi Hb Hv. unfold iand_item.
  rewrite (bind_return _ _ s b s) by now apply getitem_run.
  apply setitem_run; [|done]. apply lookup_lt_Some in Hb. lia.
Qed.

Lemma wf_buffer_lookup buf (n : nat) :
  wf_buffer buf → (n < 16)%nat → ∃ b, buf !! n = Some b ∧ is_byte b.
Proof.
  intros [Hlen Hall] Hn.
  destruct (lookup_lt_is_Some_2 buf n) as [b Hb]; [lia|].
  exists b. split; [done|]. eapply Forall_lookup_1; eauto.
Qed.

Lemma wf_buffer_insert buf (n : nat) v :
  wf_buffer buf → is_byte v → wf_buffer (<[n := v]> buf).
Proof.
  intros [Hlen Hall] Hv. split; [now rewrite length_insert|].
  now apply Forall_insert.
Qed.

(** Bits of a byte *)

Lemma byte_high_bits b n : is_byte b → 8 ≤ n → Z.testbit b n = false.
Proof.
  intros [H0 H1] Hn. destruct (Z.eq_dec b 0) as [->|]; [apply Z.bits_0|].
  apply Z.bits_above_log2; [done|].
  assert (Z.log2 b < 8); [|lia]. apply Z.log2_lt_pow2; lia.
Qed.

Lemma is_byte_bits b :
  0 ≤ b → (∀ n, 8 ≤ n → Z.testbit b n = false) → is_byte b.
Proof.
  intros H0 Hhi. split; [done|].
  destruct (Z.eq_dec b 0) as [->|]; [lia|].
  destruct (Z.lt_ge_cases b 256) as [|Hge]; [done|].
  assert (Hl : 8 ≤ Z.log2 b) by (apply (Z.log2_le_pow2 b 8); lia).
  specialize (Hhi (Z.log2 b) Hl). rewrite Z.bit_log2 in Hhi by lia. done.
Qed.

Lemma is_byte_lor a b : is_byte a → is_byte b → is_byte (Z.lor a b).
Proof.
  intros Ha Hb. apply is_byte_bits.
  - apply Z.lor_nonneg. unfold is_byte in *. lia.
  - intros n Hn. now rewrite Z.lor_spec, !byte_high_bits.
Qed.

Lemma is_byte_land a m : is_byte m → is_byte (Z.land a m).
Proof.
  intros Hm. apply is_byte_bits.
  - apply Z.land_nonneg. unfold is_byte in *. lia.
  - intros n Hn. rewrite Z.land_spec, (byte_high_bits m) by done.
    apply andb_false_r.
Qed.

Lemma wf_buffer_bytearray : wf_buffer (bytearray 16).
Proof. split; [done|]. repeat constructor; unfold is_byte; lia. Qed.

Lemma testbit_1 n : 0 ≤ n → Z.testbit 1 n = (n =? 0).
Proof.
  intros Hn. change 1 with (2 ^ 0). rewrite Z.pow2_bits_eqb by lia.
  apply Z.eqb_sym.
Qed.

Lemma testbit_0xFE n : 0 ≤ n < 8 → Z.testbit 0xFE n = negb (n =? 0).
Proof.
  intros Hn.
  assert (n = 0 ∨ n = 1 ∨ n = 2 ∨ n = 3 ∨ n = 4 ∨ n = 5 ∨ n = 6 ∨ n = 7)
    as H by lia.
  repeat destruct H as [-> | H]; try subst n; reflexivity.
Qed.

(** ** 14-segment driver: colon and decimal point *)

(** C8: on a driver constructed with [is_ht16k33=True], [set_colon] and
    [set_decimal] return without touching the object; otherwise [set_colon]
    sets ([|= 0x01]) or clears ([&= 0xFE]) bit 0 of buffer byte 1, every
    other bit of it staying as it was, and [set_decimal] writes buffer byte 3
    with [|= 0x01] to set and [&= 0x7F] to clear. *)
Theorem set_colon_set_decimal_masks (s : device) :
  wf_buffer (buffer s) →
  (is_ht16k33 s = true →
   ∀ is_on, HT16K33Segment14.set_colon is_on s = (Return tt, s)
            ∧ HT16K33Segment14.set_decimal is_on s = (Return tt, s))
  ∧ (is_ht16k33 s = false →
     ∃ b1 b3,
       buffer s !! 1%nat = Some b1 ∧ buffer s !! 3%nat = Some b3
       ∧ HT16K33Segment14.set_colon true s
         = (Return tt, with_buffer s (<[1%nat := Z.lor b1 0x01]> (buffer s)))
       ∧ HT16K33Segment14.set_colon false s
         = (Return tt, with_buffer s (<[1%nat := Z.land b1 0xFE]> (buffer s)))
       ∧ HT16K33Segment14.set_decimal true s
         = (Return tt, with_buffer s (<[3%nat := Z.lor b3 0x01]> (buffer s)))
       ∧ HT16K33Segment14.set_decimal false s
         = (Return tt, with_buffer s (<[3%nat := Z.land b3 0x7F]> (buffer s)))
       ∧ (∀ n, 0 ≤ n →
              Z.testbit (Z.lor b1 0x01) n = (n =? 0) || Z.testbit b1 n)
       ∧ (∀ n, 0 ≤ n →
              Z.testbit (Z.land b1 0xFE) n = negb (n =? 0) && Z.testbit b1 n)).
Proof.
  intros Hwf. split.
  - intros Hh is_on.
    unfold HT16K33Segment14.set_colon, HT16K33Segment14.set_decimal.
    rewrite !(bind_return _ _ s true s) by (unfold get; now rewrite Hh).
    done.
  - intros Hh.
    destruct (wf_buffer_lookup _ 1 Hwf) as (b1 & Hb1 & Hr1); [lia|].
    destruct (wf_buffer_lookup _ 3 Hwf) as (b3 & Hb3 & Hr3); [lia|].
    exists b1, b3. split; [done|]. split; [done|].
    unfold HT16K33Segment14.set_colon, HT16K33Segment14.set_decimal.
    rewrite !(bind_return _ _ s false s) by (unfold get; now rewrite Hh).
    unfold HT16K33Segment14.VK16K33_SEG14_COLON_BYTE,
      HT16K33Segment14.VK16K33_SEG14_DECIMAL_BYTE.
    repeat split.
    + apply (ior_item_run 1); [lia | done |].
      apply is_byte_lor; [done | unfold is_byte; lia].
    + apply (iand_item_run 1); [lia | done |].
      apply is_byte_land. unfold is_byte; lia.
    + apply (ior_item_run 3); [lia | done |].
      apply is_byte_lor; [done | unfold is_byte; lia].
    + apply (iand_item_run 3); [lia | done |].
      apply is_byte_land. unfold is_byte; lia.
    + intros n Hn. rewrite Z.lor_spec, testbit_1 by done. apply orb_comm.
    + intros n Hn. rewrite Z.land_spec.
      destruct (Z.lt_ge_cases n 8).
      * rewrite testbit_0xFE by lia. apply andb_comm.
      * rewrite (byte_high_bits b1 n) by done. now rewrite andb_false_r.
Qed.

Lemma set_colon_set_decimal_masks_witness :
  wf_buffer [0; 0x02; 0; 0x80; 0; 0; 0; 0; 0; 0; 0; 0; 0; 0; 0; 0]
  ∧ wf_buffer [0; 0x03; 0; 0x81; 0; 0; 0; 0; 0; 0; 0; 0; 0; 0; 0; 0]
  ∧ HT16K33Segment14.set_colon true
      (Device [] 0x70 15 0 None
              [0; 0x02; 0; 0x80; 0; 0; 0; 0; 0; 0; 0; 0; 0; 0; 0; 0]
              false false)
    = (Return tt,
       Device [] 0x70 15 0 None
              [0; 0x03; 0; 0x80; 0; 0; 0; 0; 0; 0; 0; 0; 0; 0; 0; 0]
              false false)
  ∧ HT16K33Segment14.set_decimal true
      (Device [] 0x70 15 0 None
              [0; 0x02; 0; 0x80; 0; 0; 0; 0; 0; 0; 0; 0; 0; 0; 0; 0]
              false false)
    = (Return tt,
       Device [] 0x70 15 0 None
              [0; 0x02; 0; 0x81; 0; 0; 0; 0; 0; 0; 0; 0; 0; 0; 0; 0]
              false false)
  ∧ HT16K33Segment14.set_colon false
      (Device [] 0x70 15 0 None
              [0; 0x03; 0; 0x81; 0; 0; 0; 0; 0; 0; 0; 0; 0; 0; 0; 0]
              false false)
    = (Return tt,
       Device [] 0x70 15 0 None
              [0; 0x02; 0; 0x81; 0; 0; 0; 0; 0; 0; 0; 0; 0; 0; 0; 0]
              false false)
  ∧ HT16K33Segment14.set_decimal false
      (Device [] 0x70 15 0 None
              [0; 0x03; 0; 0x81; 0; 0; 0; 0; 0; 0; 0; 0; 0; 0; 0; 0]
              false false)
    = (Return tt,
       Device [] 0x70 15 0 None
              [0; 0x03; 0; 0x01; 0; 0; 0; 0; 0; 0; 0; 0; 0; 0; 0; 0]
              false false)
  ∧ HT16K33Segment14.set_colon true
      (Device [] 0x70 15 0 None
              [0; 0x02; 0; 0x80; 0; 0; 0; 0; 0; 0; 0; 0; 0; 0; 0; 0]
              false true)
    = (Return tt,
       Device [] 0x70 15 0 None
              [0; 0x02; 0; 0x80; 0; 0; 0; 0; 0; 0; 0; 0; 0; 0; 0; 0]
              false true).
Proof.
  assert (Ha : wf_buffer
                 [0; 0x02; 0; 0x80; 0; 0; 0; 0; 0; 0; 0; 0; 0; 0; 0; 0]).
  { split; [reflexivity|].
    repeat (apply Forall_cons; split; [unfold is_byte; lia|]).
    now apply Forall_nil. }
  assert (Hb : wf_buffer
                 [0; 0x03; 0; 0x81; 0; 0; 0; 0; 0; 0; 0; 0; 0; 0; 0; 0]).
  { split; [reflexivity|].
    repeat (apply Forall_cons; split; [unfold is_byte; lia|]).
    now apply Forall_nil. }
  split; [exact Ha|]. split; [exact Hb|].
  destruct (set_colon_set_decimal_masks
              (Device [] 0x70 15 0 None
                      [0; 0x02; 0; 0x80; 0; 0; 0; 0; 0; 0; 0; 0; 0; 0; 0; 0]
                      false false) Ha) as [_ HA].
  destruct (HA eq_refl)
    as (a1 & a3 & Ha1 & Ha3 & Hcolon_on & _ & Hdec_on & _).
  injection Ha1 as <-. injection Ha3 as <-.
  destruct (set_colon_set_decimal_masks
              (Device [] 0x70 15 0 None
                      [0; 0x03; 0; 0x81; 0; 0; 0; 0; 0; 0; 0; 0; 0; 0; 0; 0]
                      false false) Hb) as [_ HB].
  destruct (HB eq_refl)
    as (b1 & b3 & Hb1 & Hb3 & _ & Hcolon_off & _ & Hdec_off & _).
  injection Hb1 as <-. injection Hb3 as <-.
  destruct (set_colon_set_decimal_masks
              (Device [] 0x70 15 0 None
                      [0; 0x02; 0; 0x80; 0; 0; 0; 0; 0; 0; 0; 0; 0; 0; 0; 0]
                      false true) Ha) as [HC _].
  destruct (HC eq_refl true) as [Hnoop _].
  split; [exact Hcolon_on|]. split; [exact Hdec_on|].
  split; [exact Hcolon_off|]. split; [exact Hdec_off | exact Hnoop].
Defined.

(** ** 14-segment driver, VK16K33 wiring: the dot flag *)

Lemma read_only_charset_glyph code :
  read_only (HT16K33Segment14.charset_glyph code).
Proof.
  unfold HT16K33Segment14.charset_glyph.
  apply read_only_bind; [apply read_only_seq_getitem|]. intros hi.
  apply read_only_bind; [apply read_only_seq_getitem|]. intros lo.
  apply read_only_ret.
Qed.

Lemma read_only_char_index14 char :
  read_only (HT16K33Segment14.char_index char).
Proof.
  unfold HT16K33Segment14.char_index.
  repeat (case_match; [apply read_only_ret
                      || (apply read_only_bind;
                          [apply read_only_ord | intros; apply read_only_ret])|]).
  apply read_only_ret.
Qed.

Lemma read_only_assert_char char_val char :
  read_only (HT16K33Segment14.assert_char char_val char).
Proof.
  unfold HT16K33Segment14.assert_char. case_match; [apply read_only_ret|].
  apply read_only_bind; [apply read_only_ord|]. intros. apply read_only_raise.
Qed.

Lemma set_digit_has_dot value digit s :
  is_ht16k33 s = false →
  HT16K33Segment14._set_digit value digit true s
  = HT16K33Segment14._set_digit value digit false s.
Proof.
  intros Hh. unfold HT16K33Segment14._set_digit.
  now rewrite !(bind_return _ _ s false s) by (unfold get; now rewrite Hh).
Qed.

(** C10: on a driver constructed with [is_ht16k33=False] the [has_dot]
    argument of [set_glyph], [set_number], [set_character] and [set_code]
    changes nothing: whatever the other arguments are, the call ends the same
    way and leaves the same buffer with [has_dot=True] as with
    [has_dot=False]. *)
Theorem has_dot_ignored_vk16k33 (s : device) :
  is_ht16k33 s = false →
  (∀ glyph digit, HT16K33Segment14.set_glyph glyph digit true s
                  = HT16K33Segment14.set_glyph glyph digit false s)
  ∧ (∀ char digit, HT16K33Segment14.set_character char digit true s
                   = HT16K33Segment14.set_character char digit false s)
  ∧ (∀ number digit, HT16K33Segment14.set_number number digit true s
                     = HT16K33Segment14.set_number number digit false s)
  ∧ (∀ code digit, HT16K33Segment14.set_code code digit true s
                   = HT16K33Segment14.set_code code digit false s).
Proof.
  intros Hh.
  assert (Hchar : ∀ char digit,
             HT16K33Segment14.set_character char digit true s
             = HT16K33Segment14.set_character char digit false s).
  { intros char digit. unfold HT16K33Segment14.set_character.
    rewrite !(bind_read_only (assert _ _)) by apply read_only_assert.
    destruct (assert _ _ s).1; [|done].
    rewrite !(bind_read_only (HT16K33Segment14.char_index _))
      by apply read_only_char_index14.
    destruct (HT16K33Segment14.char_index char s).1 as [cv|]; [|done].
    rewrite !(bind_read_only (HT16K33Segment14.assert_char _ _))
      by apply read_only_assert_char.
    destruct (HT16K33Segment14.assert_char cv char s).1; [|done].
    rewrite !(bind_read_only (HT16K33Segment14.charset_glyph _))
      by apply read_only_charset_glyph.
    destruct (HT16K33Segment14.charset_glyph cv s).1; [|done].
    now apply set_digit_has_dot. }
  split; [|split; [done|split]].
  - intros glyph digit. unfold HT16K33Segment14.set_glyph.
    rewrite !(bind_read_only (assert _ _)) by apply read_only_assert.
    destruct (assert _ _ s).1; [|done].
    destruct (assert _ _ s).1; [|done].
    now apply set_digit_has_dot.
  - intros number digit. unfold HT16K33Segment14.set_number.
    rewrite !(bind_read_only (assert _ _)) by apply read_only_assert.
    destruct (assert _ _ s).1; [|done].
    destruct (assert _ _ s).1; [|done].
    apply Hchar.
  - intros code digit. unfold HT16K33Segment14.set_code.
    rewrite !(bind_read_only (assert _ _)) by apply read_only_assert.
    destruct (assert _ _ s).1; [|done].
    destruct (assert _ _ s).1; [|done].
    rewrite !(bind_read_only (HT16K33Segment14.charset_glyph _))
      by apply read_only_charset_glyph.
    destruct (HT16K33Segment14.charset_glyph code s).1; [|done].
    now apply set_digit_has_dot.
Qed.

Lemma has_dot_ignored_vk16k33_witness :
  is_ht16k33 (HT16K33Segment14.new [] 0x70 false).2 = false
  ∧ HT16K33Segment14.set_character "A" 1 true
      (HT16K33Segment14.new [] 0x70 false).2
    = HT16K33Segment14.set_character "A" 1 false
        (HT16K33Segment14.new [] 0x70 false).2.
Proof.
  split; [reflexivity|].
  apply (has_dot_ignored_vk16k33 (HT16K33Segment14.new [] 0x70 false).2).
  reflexivity.
Defined.

(** ** Bit permutations of a byte, checked over all 256 bytes *)

Lemma elem_of_range lo hi x : lo ≤ x < hi → In x (range lo hi).
Proof.
  intros H. unfold range. apply in_map_iff. exists (Z.to_nat (x - lo)).
  split; [lia|]. apply in_seq. lia.
Qed.

Lemma permutes_bits_byte f src b :
  permutes_bits f src = true → (∀ n, 8 ≤ n → src n = n) → is_byte b →
  is_byte (f b) ∧ ∀ n, 0 ≤ n → Z.testbit (f b) n = Z.testbit b (src n).
Proof.
  intros Hall Hsrc Hb. unfold permutes_bits in Hall.
  rewrite forallb_forall in Hall. specialize (Hall b (elem_of_range _ _ _ Hb)).
  unfold permutes_bits_at in Hall.
  apply andb_true_iff in Hall as [Hr Hbits].
  apply andb_true_iff in Hr as [H0 H1].
  apply Z.leb_le in H0. apply Z.ltb_lt in H1.
  assert (Hf : is_byte (f b)) by done. split; [done|].
  intros n Hn. destruct (Z.lt_ge_cases n 8).
  - rewrite forallb_forall in Hbits.
    apply eqb_prop, Hbits, elem_of_range. lia.
  - now rewrite Hsrc, !byte_high_bits.
Qed.

Lemma swap_b11_b13_permutes :
  permutes_bits HT16K33Segment14.swap_b11_b13 exchange_3_5 = true.
Proof. vm_compute. reflexivity. Qed.

Lemma rotate_digit_permutes :
  permutes_bits HT16K33Segment.rotate_digit exchange_groups = true.
Proof. vm_compute. reflexivity. Qed.

Lemma lor_below_pow2 a b k :
  0 ≤ k → 0 ≤ a < 2 ^ k → 0 ≤ b < 2 ^ k → 0 ≤ Z.lor a b < 2 ^ k.
Proof.
  intros Hk Ha Hb.
  assert (H0 : 0 ≤ Z.lor a b) by (apply Z.lor_nonneg; lia).
  split; [done|].
  destruct (Z.eq_dec (Z.lor a b) 0) as [->|Hne]; [lia|].
  assert (k ≠ 0).
  { intros ->. assert (a = 0) as -> by lia. assert (b = 0) as -> by lia.
    done. }
  apply Z.log2_lt_pow2; [lia|]. rewrite Z.log2_lor by lia.
  apply Z.max_lub_lt.
  - destruct (Z.eq_dec a 0) as [->|]; [simpl|apply Z.log2_lt_pow2]; lia.
  - destruct (Z.eq_dec b 0) as [->|]; [simpl|apply Z.log2_lt_pow2]; lia.
Qed.

Lemma digit_cases d : 0 ≤ d < 4 → d = 0 ∨ d = 1 ∨ d = 2 ∨ d = 3.
Proof. lia. Qed.

(** ** 14-segment driver, HT16K33 wiring: the digit writer *)

(** C2: on a driver constructed with [is_ht16k33=True], for a glyph value in
    [0, 0xFFFF), a digit in [0, 4) and either dot flag, the digit writer
    first ORs 0x4000 into the value when [has_dot] holds, then stores the low
    byte of the value at [buffer[2*digit]] and, at [buffer[2*digit+1]], its
    high byte with bits 3 and 5 exchanged and every other bit as it was. *)
Theorem set_digit_ht16k33 (s : device) (v d : Z) (has_dot : bool) :
  is_ht16k33 s = true → wf_buffer (buffer s) → 0 ≤ d < 4 → 0 ≤ v < 0xFFFF →
  let value := if has_dot then Z.lor v 0x4000 else v in
  let lsb := value mod 256 in
  let msb := value / 256 in
  ∃ msb',
    HT16K33Segment14._set_digit v d has_dot s
    = (Return tt,
       with_buffer s (<[Z.to_nat (2 * d) := lsb]>
                        (<[Z.to_nat (2 * d + 1) := msb']> (buffer s))))
    ∧ is_byte lsb ∧ is_byte msb'
    ∧ ∀ n, 0 ≤ n → Z.testbit msb' n = Z.testbit msb (exchange_3_5 n).
Proof.
  intros Hh Hwf Hd Hv value lsb msb.
  assert (Hvalue : 0 ≤ value < 65536).
  { subst value. destruct has_dot; [|lia].
    apply (lor_below_pow2 v 0x4000 16); change (2 ^ 16) with 65536; lia. }
  assert (Hlsb : Z.land value 0xFF = lsb).
  { change 0xFF with (Z.ones 8). now rewrite Z.land_ones by lia. }
  assert (Hmsb : Z.land (Z.shiftr value 8) 0xFF = msb).
  { change 0xFF with (Z.ones 8).
    rewrite Z.land_ones, Z.shiftr_div_pow2 by lia.
    apply Z.mod_small. change (2 ^ 8) with 256. subst msb.
    split; [apply Z.div_pos; lia|]. apply Z.div_lt_upper_bound; lia. }
  assert (Hbm : is_byte msb).
  { subst msb. split; [apply Z.div_pos; lia|].
    apply Z.div_lt_upper_bound; lia. }
  assert (Hbl : is_byte lsb).
  { subst lsb. apply Z.mod_pos_bound. lia. }
  destruct (permutes_bits_byte _ _ msb swap_b11_b13_permutes) as [Hb' Hbits];
    [intros n Hn; unfold exchange_3_5;
     destruct (Z.eqb_spec n 3), (Z.eqb_spec n 5); lia | done |].
  exists (HT16K33Segment14.swap_b11_b13 msb).
  split; [|done].
  unfold HT16K33Segment14._set_digit.
  rewrite (bind_return _ _ s true s) by (unfold get; now rewrite Hh).
  cbv zeta. unfold HT16K33Segment14.HT16K33_SEG14_DP_VALUE.
  change (if has_dot then Z.lor v 0x4000 else v) with value.
  rewrite Hlsb, Hmsb.
  destruct Hwf as [Hlen Hall].
  assert (Hsh : Z.shiftl d 1 = 2 * d)
    by (rewrite Z.shiftl_mul_pow2 by lia; lia).
  rewrite Hsh.
  rewrite (bind_return _ _ s tt _
             (setitem_run (2 * d + 1) _ s ltac:(rewrite Hlen; lia) Hb')).
  apply setitem_run; [|done].
  cbn [buffer with_buffer]. rewrite length_insert, Hlen. lia.
Qed.

Lemma set_digit_ht16k33_witness :
  is_ht16k33 (HT16K33Segment14.new [] 0x70 true).2 = true
  ∧ wf_buffer (buffer (HT16K33Segment14.new [] 0x70 true).2)
  ∧ 0 ≤ 1 < 4 ∧ 0 ≤ 0x2809 < 0xFFFF
  ∧ ∃ msb',
      HT16K33Segment14._set_digit 0x2809 1 true
        (HT16K33Segment14.new [] 0x70 true).2
      = (Return tt,
         with_buffer (HT16K33Segment14.new [] 0x70 true).2
           (<[2%nat := 0x09]>
              (<[3%nat := msb']>
                 (buffer (HT16K33Segment14.new [] 0x70 true).2))))
      ∧ is_byte 0x09 ∧ is_byte msb'
      ∧ ∀ n, 0 ≤ n → Z.testbit msb' n = Z.testbit 0x68 (exchange_3_5 n).
Proof.
  split; [reflexivity|]. split; [apply wf_buffer_bytearray|].
  split; [lia|]. split; [lia|].
  apply (set_digit_ht16k33 (HT16K33Segment14.new [] 0x70 true).2 0x2809 1 true);
    [reflexivity | apply wf_buffer_bytearray | lia | lia].
Defined.

(** ** Rendering *)

Lemma bytes_run l s : Forall is_byte l → bytes l s = (Return l, s).
Proof.
  intros Hl. unfold bytes.
  replace (forallb _ l) with true; [done|].
  symmetry. apply forallb_forall. intros b Hb.
  apply in_range_true. rewrite Forall_forall in Hl. apply Hl.
  now apply list_elem_of_In.
Qed.

Lemma render_run s :
  Forall is_byte (buffer s) →
  _render s = (Return tt, with_i2c s (i2c s ++ [(address s, 0 :: buffer s)])).
Proof.
  intros Hall. unfold _render.
  rewrite (bind_return _ _ s (buffer s) s) by reflexivity.
  rewrite Nat.add_1_r. cbn [bytearray replicate take app].
  change (<[0%nat := 0]> (0 :: buffer s)) with (0 :: buffer s).
  rewrite (bind_return _ _ s (0 :: buffer s) s); [done|].
  apply bytes_run. constructor; [unfold is_byte; lia | done].
Qed.

(** ** 7-segment driver: rotation *)

Lemma rotate_digit_byte a :
  is_byte a →
  is_byte (HT16K33Segment.rotate_digit a)
  ∧ ∀ n, 0 ≤ n →
         Z.testbit (HT16K33Segment.rotate_digit a) n
         = Z.testbit a (exchange_groups n).
Proof.
  apply permutes_bits_byte; [apply rotate_digit_permutes|].
  intros n Hn. unfold exchange_groups.
  destruct (Z.ltb_spec n 3), (Z.ltb_spec n 6); lia.
Qed.

Ltac explicit_buffer s Hwf :=
  let buf := fresh "buf" in
  let Hlen := fresh "Hlen" in
  let Hall := fresh "Hall" in
  destruct s as [? ? ? ? ? buf ? ?]; cbn [buffer] in Hwf;
  destruct Hwf as [Hlen Hall];
  do 16 (destruct buf as [|? buf]; [discriminate Hlen|]);
  destruct buf; [|discriminate Hlen]; clear Hlen;
  repeat match goal with
         | H : Forall _ (_ :: _) |- _ =>
             apply Forall_cons in H; destruct H as [? H]
         end;
  clear Hall.

Ltac run_leaf :=
  first [ reflexivity
        | etransitivity;
          [ apply setitem_run;
            [ cbn; rewrite ?length_insert; cbn; lia
            | first [ assumption | apply rotate_digit_byte; assumption ] ]
          | reflexivity ] ].

(** Solves [m s = r] for a chain [m] of steps that all return. *)
Ltac run_chain :=
  lazymatch goal with
  | |- (?m ≫= ?f) ?s = _ =>
      etransitivity;
      [ eapply (bind_return m f s); run_chain | cbv beta; run_chain ]
  | |- _ => run_leaf
  end.

Lemma rotate_buffer_run s :
  wf_buffer (buffer s) →
  HT16K33Segment.rotate_buffer s
  = (Return tt, with_buffer s (rotated (buffer s))).
Proof.
  intros Hwf. explicit_buffer s Hwf.
  unfold HT16K33Segment.rotate_buffer.
  change (range 0 4) with [0; 1; 2; 3]. cbn [for_each].
  run_chain.
Qed.

Lemma wf_buffer_total buf (n : nat) :
  wf_buffer buf → (n < 16)%nat → is_byte (buf !!! n).
Proof.
  intros Hwf Hn. destruct (wf_buffer_lookup buf n Hwf Hn) as (b & Hb & Hr).
  now rewrite (list_lookup_total_correct _ _ _ Hb).
Qed.

Lemma wf_buffer_rotated buf : wf_buffer buf → wf_buffer (rotated buf).
Proof.
  intros Hwf. unfold rotated.
  repeat apply wf_buffer_insert; try done;
    apply rotate_digit_byte, wf_buffer_total; (done || lia).
Qed.

Lemma draw_rotated_run s :
  is_rotated s = true → wf_buffer (buffer s) →
  HT16K33Segment.draw s
  = (Return tt,
     with_i2c (with_buffer s (rotated (buffer s)))
              (i2c s ++ [(address s, 0 :: rotated (buffer s))])).
Proof.
  intros Hrot Hwf. unfold HT16K33Segment.draw.
  rewrite (bind_return _ _ s true s) by (unfold get; now rewrite Hrot).
  rewrite (bind_return _ _ s tt _ (rotate_buffer_run s Hwf)).
  rewrite render_run; [done|]. apply wf_buffer_rotated, Hwf.
Qed.

(** Without the flag, [draw] transmits the buffer as it is. *)
Lemma draw_unrotated_run s :
  is_rotated s = false → wf_buffer (buffer s) →
  HT16K33Segment.draw s
  = (Return tt, with_i2c s (i2c s ++ [(address s, 0 :: buffer s)])).
Proof.
  intros Hrot Hwf. unfold HT16K33Segment.draw.
  rewrite (bind_return _ _ s false s) by (unfold get; now rewrite Hrot).
  rewrite (bind_return _ _ s tt s) by reflexivity.
  apply render_run, Hwf.
Qed.

(** C5: while the rotation flag is set, [draw] rewrites the stored buffer
    before it transmits it: the bytes at [POS[0]], [POS[3]] and at [POS[1]],
    [POS[2]] change places and each of the four has its bit groups [0:3) and
    [3:6) exchanged, bits 6 and 7 staying; every other byte stays; what is
    transmitted is the rewritten buffer after a zero byte.  The rewritten
    buffer is what is stored, so a second [draw] under the same flag applies
    the transform to the already transformed data. *)
Theorem draw_rotated_in_place (s : device) :
  is_rotated s = true → wf_buffer (buffer s) →
  let buf1 := rotated (buffer s) in
  let buf2 := rotated buf1 in
  HT16K33Segment.draw s
  = (Return tt,
     with_i2c (with_buffer s buf1) (i2c s ++ [(address s, 0 :: buf1)]))
  ∧ (HT16K33Segment.draw;; HT16K33Segment.draw) s
    = (Return tt,
       with_i2c (with_buffer s buf2)
                (i2c s ++ [(address s, 0 :: buf1); (address s, 0 :: buf2)]))
  ∧ (∃ b0 b2 b6 b8,
        buffer s !! 0%nat = Some b0 ∧ buffer s !! 2%nat = Some b2
        ∧ buffer s !! 6%nat = Some b6 ∧ buffer s !! 8%nat = Some b8
        ∧ buf1 !! 0%nat = Some (HT16K33Segment.rotate_digit b8)
        ∧ buf1 !! 2%nat = Some (HT16K33Segment.rotate_digit b6)
        ∧ buf1 !! 6%nat = Some (HT16K33Segment.rotate_digit b2)
        ∧ buf1 !! 8%nat = Some (HT16K33Segment.rotate_digit b0))
  ∧ (∀ j : nat, j ≠ 0%nat → j ≠ 2%nat → j ≠ 6%nat → j ≠ 8%nat →
                buf1 !! j = buffer s !! j)
  ∧ (∀ a, is_byte a →
          is_byte (HT16K33Segment.rotate_digit a)
          ∧ ∀ n, 0 ≤ n →
                 Z.testbit (HT16K33Segment.rotate_digit a) n
                 = Z.testbit a (exchange_groups n)).
Proof.
  intros Hrot Hwf buf1 buf2.
  pose proof (draw_rotated_run s Hrot Hwf) as Hdraw. fold buf1 in Hdraw.
  split; [done|]. split; [|split; [|split]].
  - rewrite (bind_return _ _ s tt _ Hdraw).
    rewrite draw_rotated_run; [| done | apply wf_buffer_rotated, Hwf].
    destruct s. cbn. now rewrite <- app_assoc.
  - destruct (wf_buffer_lookup _ 0 Hwf) as (b0 & Hb0 & _); [lia|].
    destruct (wf_buffer_lookup _ 2 Hwf) as (b2 & Hb2 & _); [lia|].
    destruct (wf_buffer_lookup _ 6 Hwf) as (b6 & Hb6 & _); [lia|].
    destruct (wf_buffer_lookup _ 8 Hwf) as (b8 & Hb8 & _); [lia|].
    exists b0, b2, b6, b8. do 4 (split; [done|]).
    subst buf1. unfold rotated.
    rewrite (list_lookup_total_correct _ _ _ Hb0),
      (list_lookup_total_correct _ _ _ Hb2),
      (list_lookup_total_correct _ _ _ Hb6),
      (list_lookup_total_correct _ _ _ Hb8).
    destruct Hwf as [Hlen _].
    repeat split;
      repeat first
        [ rewrite list_lookup_insert_eq by (rewrite ?length_insert; lia)
        | rewrite list_lookup_insert_ne by lia ];
      reflexivity.
  - intros j H0 H2 H6 H8. subst buf1. unfold rotated.
    now rewrite !list_lookup_insert_ne by done.
  - apply rotate_digit_byte.
Qed.

Lemma draw_rotated_in_place_witness :
  is_rotated
    (Device [] 0x70 15 0 None
            [0x06; 0; 0xDB; 0; 0x02; 0; 0x4F; 0; 0x66; 0; 0; 0; 0; 0; 0; 0]
            true false) = true
  ∧ wf_buffer [0x06; 0; 0xDB; 0; 0x02; 0; 0x4F; 0; 0x66; 0; 0; 0; 0; 0; 0; 0]
  ∧ HT16K33Segment.draw
      (Device [] 0x70 15 0 None
              [0x06; 0; 0xDB; 0; 0x02; 0; 0x4F; 0; 0x66; 0; 0; 0; 0; 0; 0; 0]
              true false)
    = (Return tt,
       Device
         [(0x70,
           [0; 0x74; 0; 0x79; 0; 0x02; 0; 0xDB; 0; 0x30; 0; 0; 0; 0; 0; 0; 0])]
         0x70 15 0 None
         [0x74; 0; 0x79; 0; 0x02; 0; 0xDB; 0; 0x30; 0; 0; 0; 0; 0; 0; 0]
         true false)
  ∧ (HT16K33Segment.draw;; HT16K33Segment.draw)
      (Device [] 0x70 15 0 None
              [0x06; 0; 0xDB; 0; 0x02; 0; 0x4F; 0; 0x66; 0; 0; 0; 0; 0; 0; 0]
              true false)
    = (Return tt,
       Device
         [(0x70,
           [0; 0x74; 0; 0x79; 0; 0x02; 0; 0xDB; 0; 0x30; 0; 0; 0; 0; 0; 0; 0]);
          (0x70,
           [0; 0x06; 0; 0xDB; 0; 0x02; 0; 0x4F; 0; 0x66; 0; 0; 0; 0; 0; 0; 0])]
         0x70 15 0 None
         [0x06; 0; 0xDB; 0; 0x02; 0; 0x4F; 0; 0x66; 0; 0; 0; 0; 0; 0; 0]
         true false).
Proof.
  assert (Hwf : wf_buffer
                  [0x06; 0; 0xDB; 0; 0x02; 0; 0x4F; 0; 0x66; 0;
                   0; 0; 0; 0; 0; 0]).
  { split; [reflexivity|].
    repeat (apply Forall_cons; split; [unfold is_byte; lia|]).
    now apply Forall_nil. }
  split; [reflexivity|]. split; [exact Hwf|].
  destruct (draw_rotated_in_place
              (Device [] 0x70 15 0 None
                      [0x06; 0; 0xDB; 0; 0x02; 0; 0x4F; 0; 0x66; 0;
                       0; 0; 0; 0; 0; 0] true false) eq_refl Hwf)
    as (Hdraw & Htwice & _).
  split; [exact Hdraw | exact Htwice].
Defined.

(** Applied twice, the transform gives the buffer back. *)
Lemma rotate_digit_involutive a :
  is_byte a → HT16K33Segment.rotate_digit (HT16K33Segment.rotate_digit a) = a.
Proof.
  intros Ha.
  assert (H : forallb (λ b, HT16K33Segment.rotate_digit
                              (HT16K33Segment.rotate_digit b) =? b)
                      (range 0 256) = true) by (vm_compute; reflexivity).
  rewrite forallb_forall in H. apply Z.eqb_eq, H, elem_of_range, Ha.
Qed.

Lemma rotated_involutive buf : wf_buffer buf → rotated (rotated buf) = buf.
Proof.
  intros [Hlen Hall].
  do 16 (destruct buf as [|? buf]; [discriminate Hlen|]).
  destruct buf; [|discriminate Hlen].
  repeat match goal with
         | H : Forall _ (_ :: _) |- _ =>
             apply Forall_cons in H; destruct H as [? H]
         end.
  unfold rotated. cbn. now rewrite !rotate_digit_involutive.
Qed.

(** ** 14-segment driver, VK16K33 wiring: the digit writer *)

Lemma with_buffer_id s : with_buffer s (buffer s) = s.
Proof. now destruct s. Qed.

Lemma with_buffer_twice s b b' :
  with_buffer (with_buffer s b) b' = with_buffer s b'.
Proof. reflexivity. Qed.

Lemma range_cons lo hi : lo < hi → range lo hi = lo :: range (lo + 1) hi.
Proof.
  intros H. unfold range.
  replace (Z.to_nat (hi - lo)) with (S (Z.to_nat (hi - (lo + 1)))) by lia.
  cbn [seq map]. f_equal; [lia|].
  rewrite <- seq_shift, map_map. apply map_ext. intros k. lia.
Qed.

Lemma for_each_app {A St : Type} (l1 l2 : list A) body (st : St) s :
  for_each (l1 ++ l2) body st s
  = (for_each l1 body st ≫= for_each l2 body) s.
Proof.
  revert st s. induction l1 as [|x l1 IH]; intros st s; [done|].
  cbn [for_each app]. unfold mbind, M_bind in *.
  destruct (body x st s) as [[st'|e] s']; [apply IH | done].
Qed.

Lemma land_pow2 v i :
  0 ≤ i → Z.land v (2 ^ i) = if Z.testbit v i then 2 ^ i else 0.
Proof.
  intros Hi. apply Z.bits_inj'. intros n Hn.
  rewrite Z.land_spec, Z.pow2_bits_eqb by done.
  destruct (Z.eqb_spec i n) as [->|Hne].
  - destruct (Z.testbit v n); [|now rewrite Z.bits_0].
    now rewrite Z.pow2_bits_eqb, Z.eqb_refl.
  - rewrite andb_false_r. destruct (Z.testbit v i); [|now rewrite Z.bits_0].
    rewrite Z.pow2_bits_eqb by done. symmetry. now apply Z.eqb_neq.
Qed.

Lemma bit_set_testbit v i :
  0 ≤ i → HT16K33Segment14.bit_set v i = Z.testbit v i.
Proof.
  intros Hi. unfold HT16K33Segment14.bit_set.
  rewrite Z.shiftl_1_l, land_pow2 by done.
  destruct (Z.testbit v i); [|done].
  apply negb_true_iff, Z.eqb_neq. pose proof (Z.pow_pos_nonneg 2 i). lia.
Qed.

Lemma marker_byte d d_mult :
  0 ≤ d < 4 → d_mult = 1 ∨ d_mult = 16 → is_byte (Z.shiftl d_mult d).
Proof.
  intros Hd Hm. apply digit_cases in Hd.
  destruct Hm as [-> | ->]; repeat destruct Hd as [-> | Hd]; try subst d;
    vm_compute; (split; [discriminate | reflexivity]).
Qed.

Lemma wf_prescribed_turn v d buf t :
  wf_buffer buf → turn_ok v d t → wf_buffer (prescribed_turn v d buf t).
Proof.
  intros Hwf Hok. destruct t as [[i a] dm]. cbn in *.
  destruct (Z.testbit v i); [|done].
  destruct Hok as [_ [Ha Hm]]; [done|].
  apply wf_buffer_insert; [done|].
  apply is_byte_lor; [|done]. apply wf_buffer_total; [done | lia].
Qed.

Lemma lshift_run x y s : 0 ≤ y → lshift x y s = (Return (Z.shiftl x y), s).
Proof.
  intros Hy. unfold lshift. now destruct (Z.ltb_spec y 0); [lia|].
Qed.

Lemma read_only_lshift x y : read_only (lshift x y).
Proof. unfold lshift. now destruct (y <? 0). Qed.

Lemma vk16k33_turn_run v d i a dm s :
  0 ≤ d → wf_buffer (buffer s) → turn_ok v d (i, a, dm) →
  HT16K33Segment14.vk16k33_turn v d i (a, dm) s
  = (Return (if i =? 6 then (0, 16) else (a + 2, dm)),
     with_buffer s (prescribed_turn v d (buffer s) (i, a, dm))).
Proof.
  intros Hd Hwf [Hi Hok]. unfold HT16K33Segment14.vk16k33_turn.
  rewrite bit_set_testbit by done. cbn [prescribed_turn].
  destruct (Z.testbit v i).
  - destruct Hok as [Ha Hm]; [done|].
    destruct (wf_buffer_lookup _ (Z.to_nat a) Hwf) as (b & Hb & Hr); [lia|].
    rewrite (list_lookup_total_correct _ _ _ Hb).
    assert (Hstore : (b ← getitem a; m ← lshift dm d; setitem a (Z.lor b m)) s
                     = (Return tt,
                        with_buffer s
                          (<[Z.to_nat a := Z.lor b (Z.shiftl dm d)]>
                             (buffer s)))).
    { rewrite (bind_return _ _ s b s) by (apply getitem_run; [lia | done]).
      rewrite (bind_return _ _ s _ s (lshift_run dm d s Hd)).
      apply setitem_run; [|now apply is_byte_lor].
      destruct Hwf as [Hlen _]. rewrite Hlen. lia. }
    rewrite (bind_return _ _ s tt _ Hstore).
    now destruct (i =? 6).
  - rewrite with_buffer_id, (bind_return _ _ s tt s) by reflexivity.
    now destruct (i =? 6).
Qed.

(** A run of turns that the buffer can take returns, with the loop variables
    and the buffer that the index sequence prescribes. *)
Lemma vk16k33_turns_run v d n :
  0 ≤ d →
  ∀ i a dm s,
    wf_buffer (buffer s) →
    Forall (turn_ok v d) (index_sequence_from n i a dm) →
    for_each (range i (i + Z.of_nat n)) (HT16K33Segment14.vk16k33_turn v d)
             (a, dm) s
    = (Return (sequence_end n i a dm),
       with_buffer s (foldl (prescribed_turn v d) (buffer s)
                            (index_sequence_from n i a dm))).
Proof.
  intros Hd. induction n as [|n IH]; intros i a dm s Hwf Hok.
  - replace (i + Z.of_nat 0) with i by lia.
    unfold range. rewrite Z.sub_diag. cbn. now rewrite with_buffer_id.
  - rewrite range_cons by lia.
    replace (i + Z.of_nat (S n)) with (i + 1 + Z.of_nat n) by lia.
    cbn [for_each index_sequence_from sequence_end foldl].
    cbn [index_sequence_from] in Hok. apply Forall_cons in Hok as [Hok Hrest].
    rewrite (bind_return _ _ s _ _
               (vk16k33_turn_run v d i a dm s Hd Hwf Hok)).
    pose proof (wf_prescribed_turn v d _ _ Hwf Hok) as Hwf'.
    destruct (i =? 6); rewrite IH by done; now rewrite with_buffer_twice.
Qed.

Lemma lookup_prescribed_turn v d buf t (j : nat) :
  prescribed_turn v d buf t !! j
  = (λ b, Z.lor b (turn_mask v d j t)) <$> (buf !! j).
Proof.
  destruct t as [[i a] dm]. cbn [prescribed_turn turn_mask].
  destruct (Z.testbit v i).
  - rewrite list_lookup_insert, andb_true_r. case_decide as Hj.
    + destruct Hj as [<- Hlt]. rewrite Nat.eqb_refl.
      destruct (lookup_lt_is_Some_2 buf _ Hlt) as [b Hb].
      now rewrite Hb, (list_lookup_total_correct _ _ _ Hb).
    + destruct (Nat.eqb_spec (Z.to_nat a) j) as [<-|Hne].
      * rewrite lookup_ge_None_2; [done | lia].
      * destruct (buf !! j); [|done]. cbn. now rewrite Z.lor_0_r.
  - rewrite andb_false_r. destruct (buf !! j); [|done].
    cbn. now rewrite Z.lor_0_r.
Qed.

Lemma lookup_prescribed_turns v d l :
  ∀ buf (j : nat),
    foldl (prescribed_turn v d) buf l !! j
    = (λ b, Z.lor b (turns_mask v d j l)) <$> (buf !! j).
Proof.
  induction l as [|t l IH]; intros buf j; cbn [foldl turns_mask foldr].
  - destruct (buf !! j); [|done]. cbn. now rewrite Z.lor_0_r.
  - rewrite IH, lookup_prescribed_turn. destruct (buf !! j); [|done].
    cbn. now rewrite Z.lor_assoc.
Qed.

Lemma index_sequence_eq :
  index_sequence
  = [ (0, 0, 1); (1, 2, 1); (2, 4, 1); (3, 6, 1); (4, 8, 1); (5, 10, 1);
      (6, 12, 1); (7, 0, 16); (8, 2, 16); (9, 4, 16); (10, 6, 16);
      (11, 8, 16); (12, 10, 16); (13, 12, 16); (14, 14, 16); (15, 16, 16) ].
Proof. reflexivity. Qed.

Lemma turn_mask_hit v d (j : nat) i a dm :
  Z.to_nat a = j →
  turn_mask v d j (i, a, dm) = if Z.testbit v i then Z.shiftl dm d else 0.
Proof. intros <-. cbn [turn_mask]. now rewrite Nat.eqb_refl. Qed.

Lemma turn_mask_miss v d (j : nat) i a dm :
  Z.to_nat a ≠ j → turn_mask v d j (i, a, dm) = 0.
Proof.
  intros H. cbn [turn_mask]. now apply Nat.eqb_neq in H as ->.
Qed.

Ltac turn_masks :=
  repeat match goal with
         | |- context [turn_mask ?v ?d ?j (?i, ?a, ?dm)] =>
             first [ rewrite (turn_mask_miss v d j i a dm) by lia
                   | rewrite (turn_mask_hit v d j i a dm) by reflexivity ]
         end.

Lemma turns_mask_plane v d (j : nat) :
  (j < 16)%nat →
  turns_mask v d j index_sequence = plane_mask v d j
  ∧ turns_mask v d j (take 15 index_sequence) = plane_mask v d j.
Proof.
  intros Hj. rewrite index_sequence_eq. unfold turns_mask.
  cbn [take foldr].
  do 16 (destruct j as [|j];
         [turn_masks; unfold plane_mask;
          cbn -[Z.testbit Z.shiftl Z.lor];
          rewrite ?Z.lor_0_l, ?Z.lor_0_r; done|]).
  lia.
Qed.

Lemma wf_prescribed_turns v d l :
  ∀ buf, wf_buffer buf → Forall (turn_ok v d) l →
         wf_buffer (foldl (prescribed_turn v d) buf l).
Proof.
  induction l as [|t l IH]; intros buf Hwf Hok; [done|].
  apply Forall_cons in Hok as [Ht Hl]. cbn [foldl].
  apply IH; [|done]. now apply wf_prescribed_turn.
Qed.

Lemma testbit_15_clear v : 0 ≤ v < 0x8000 → Z.testbit v 15 = false.
Proof.
  intros Hv. destruct (Z.eq_dec v 0) as [->|]; [done|].
  apply Z.bits_above_log2; [lia|].
  apply Z.log2_lt_pow2; [lia|]. change (2 ^ 15) with 0x8000. lia.
Qed.

Lemma turn_ok_intro v d i a dm :
  0 ≤ i → 0 ≤ a < 16 → 0 ≤ d < 4 → dm = 1 ∨ dm = 16 →
  turn_ok v d (i, a, dm).
Proof.
  intros Hi Ha Hd Hm. split; [done|]. intros _. split; [done|].
  now apply marker_byte.
Qed.

(** The first fifteen turns never leave the buffer. *)
Lemma first_turns_ok v d :
  0 ≤ d < 4 → Forall (turn_ok v d) (take 15 index_sequence).
Proof.
  intros Hd. rewrite index_sequence_eq. cbn [take].
  repeat (apply Forall_cons; split;
          [apply turn_ok_intro; (lia || auto)|]).
  now apply Forall_nil.
Qed.

Lemma all_turns_ok v d :
  0 ≤ d < 4 → Z.testbit v 15 = false → Forall (turn_ok v d) index_sequence.
Proof.
  intros Hd H15.
  change index_sequence with (take 15 index_sequence ++ [(15, 16, 16)]).
  apply Forall_app. split; [now apply first_turns_ok|].
  apply Forall_cons. split; [|now apply Forall_nil].
  split; [lia|]. intros H. congruence.
Qed.

Lemma vk16k33_loop_run v d s :
  wf_buffer (buffer s) → 0 ≤ d < 4 → Z.testbit v 15 = false →
  for_each (range 0 16) (HT16K33Segment14.vk16k33_turn v d) (0, 1) s
  = (Return (18, 16), with_buffer s (prescribed v d (buffer s))).
Proof.
  intros Hwf Hd H15.
  apply (vk16k33_turns_run v d 16 ltac:(lia) 0 0 1 s Hwf), all_turns_ok;
    done.
Qed.

Lemma vk16k33_first_turns_run v d s :
  wf_buffer (buffer s) → 0 ≤ d < 4 →
  for_each (range 0 15) (HT16K33Segment14.vk16k33_turn v d) (0, 1) s
  = (Return (16, 16),
     with_buffer s (foldl (prescribed_turn v d) (buffer s)
                          (take 15 index_sequence))).
Proof.
  intros Hwf Hd.
  apply (vk16k33_turns_run v d 15 ltac:(lia) 0 0 1 s Hwf),
    (first_turns_ok v d Hd).
Qed.

Lemma vk16k33_turn_15_raises v d s :
  length (buffer s) = 16%nat → Z.testbit v 15 = true →
  HT16K33Segment14.vk16k33_turn v d 15 (16, 16) s = (Raise IndexError, s).
Proof.
  intros Hlen H15. unfold HT16K33Segment14.vk16k33_turn.
  rewrite bit_set_testbit, H15 by lia.
  apply bind_raise.
  apply bind_raise, getitem_beyond. lia.
Qed.

(** C1: on a driver constructed with [is_ht16k33=False], for a digit in
    [0, 4) and a glyph value in [0, 0x8000), the digit writer (and
    [set_glyph], which hands the glyph to it) returns with the buffer that
    the index sequence prescribes: from [a = 0], [d_mult = 1], for [i] in
    0..16, if bit [i] of the value is set then [buffer[a] |= d_mult << d];
    then [a += 2]; and right after [i = 6], [a = 0] and [d_mult = 16].
    Byte by byte, each buffer byte is ORed with the markers of the plane
    layout and nothing else; the bytes at odd offsets are as before. *)
Theorem set_digit_vk16k33 (s : device) (v d : Z) (has_dot : bool) :
  is_ht16k33 s = false → wf_buffer (buffer s) → 0 ≤ d < 4 → 0 ≤ v < 0x8000 →
  let buf' := prescribed v d (buffer s) in
  HT16K33Segment14._set_digit v d has_dot s = (Return tt, with_buffer s buf')
  ∧ HT16K33Segment14.set_glyph v d has_dot s = (Return tt, with_buffer s buf')
  ∧ length buf' = 16%nat
  ∧ (∀ (j : nat) b,
        buffer s !! j = Some b →
        buf' !! j = Some (Z.lor b (plane_mask v d j)))
  ∧ (∀ j : nat, Nat.odd j = true → buf' !! j = buffer s !! j).
Proof.
  intros Hh Hwf Hd Hv buf'.
  pose proof (testbit_15_clear v Hv) as H15.
  assert (Hdigit : HT16K33Segment14._set_digit v d has_dot s
                   = (Return tt, with_buffer s buf')).
  { unfold HT16K33Segment14._set_digit.
    rewrite (bind_return _ _ s false s) by (unfold get; now rewrite Hh).
    now rewrite (bind_return _ _ s _ _ (vk16k33_loop_run v d s Hwf Hd H15)). }
  assert (Hlook : ∀ (j : nat) b,
             buffer s !! j = Some b →
             buf' !! j = Some (Z.lor b (plane_mask v d j))).
  { intros j b Hb. subst buf'. unfold prescribed.
    rewrite lookup_prescribed_turns, Hb.
    apply lookup_lt_Some in Hb. destruct Hwf as [Hlen _].
    now rewrite (proj1 (turns_mask_plane v d j ltac:(lia))). }
  split; [done|]. split; [|split; [|split; [done|]]].
  - unfold HT16K33Segment14.set_glyph.
    rewrite (bind_return _ _ s tt s)
      by (apply assert_true, in_range_true; lia).
    rewrite (bind_return _ _ s tt s)
      by (apply assert_true, in_range_true; lia).
    done.
  - apply wf_prescribed_turns; [done | now apply all_turns_ok].
  - intros j Hodd. destruct (buffer s !! j) as [b|] eqn:Hb.
    + rewrite (Hlook j b Hb). unfold plane_mask.
      now rewrite Hodd, Z.lor_0_r.
    + subst buf'. unfold prescribed.
      now rewrite lookup_prescribed_turns, Hb.
Qed.

Lemma set_digit_vk16k33_witness :
  is_ht16k33 (HT16K33Segment14.new [] 0x70 false).2 = false
  ∧ wf_buffer (buffer (HT16K33Segment14.new [] 0x70 false).2)
  ∧ 0 ≤ 1 < 4 ∧ 0 ≤ 0x00F7 < 0x8000
  ∧ HT16K33Segment14.set_glyph 0x00F7 1 false
      (HT16K33Segment14.new [] 0x70 false).2
    = (Return tt,
       with_buffer (HT16K33Segment14.new [] 0x70 false).2
         [34; 0; 2; 0; 2; 0; 0; 0; 2; 0; 2; 0; 2; 0; 0; 0]).
Proof.
  split; [reflexivity|]. split; [apply wf_buffer_bytearray|].
  split; [lia|]. split; [lia|].
  apply (set_digit_vk16k33 (HT16K33Segment14.new [] 0x70 false).2 0x00F7 1 false);
    [reflexivity | apply wf_buffer_bytearray | lia | lia].
Defined.

(** C6: on a driver constructed with [is_ht16k33=False], [set_glyph] lets
    through every glyph in [0, 0xFFFF), those with bit 15 set included; for
    such a glyph and any digit the fifteen turns [i = 0..14] are carried out
    and leave the running index at 16, the write to [buffer[16]] at turn
    [i = 15] is out of bounds for the 16-byte buffer, and the call ends in
    an IndexError with the markers of the glyph's lower bits already in the
    buffer. *)
Theorem set_glyph_bit15_index_error (s : device) (g d : Z) (has_dot : bool) :
  is_ht16k33 s = false → wf_buffer (buffer s) → 0 ≤ d < 4 →
  0 ≤ g < 0xFFFF → Z.testbit g 15 = true →
  let buf' :=
    foldl (prescribed_turn g d) (buffer s) (take 15 index_sequence) in
  for_each (range 0 15) (HT16K33Segment14.vk16k33_turn g d) (0, 1) s
  = (Return (16, 16), with_buffer s buf')
  ∧ HT16K33Segment14.vk16k33_turn g d 15 (16, 16) (with_buffer s buf')
    = (Raise IndexError, with_buffer s buf')
  ∧ HT16K33Segment14.set_glyph g d has_dot s
    = (Raise IndexError, with_buffer s buf')
  ∧ (∀ (j : nat) b,
        buffer s !! j = Some b →
        buf' !! j = Some (Z.lor b (plane_mask g d j))).
Proof.
  intros Hh Hwf Hd Hg H15 buf'.
  pose proof (vk16k33_first_turns_run g d s Hwf Hd) as Hfirst.
  fold buf' in Hfirst.
  assert (Hwf' : wf_buffer buf').
  { apply wf_prescribed_turns; [done | now apply first_turns_ok]. }
  assert (Hlast : HT16K33Segment14.vk16k33_turn g d 15 (16, 16)
                    (with_buffer s buf')
                  = (Raise IndexError, with_buffer s buf')).
  { apply vk16k33_turn_15_raises; [apply Hwf' | done]. }
  split; [done|]. split; [done|]. split.
  - unfold HT16K33Segment14.set_glyph.
    rewrite (bind_return _ _ s tt s)
      by (apply assert_true, in_range_true; lia).
    rewrite (bind_return _ _ s tt s)
      by (apply assert_true, in_range_true; lia).
    unfold HT16K33Segment14._set_digit.
    rewrite (bind_return _ _ s false s) by (unfold get; now rewrite Hh).
    apply bind_raise.
    change (range 0 16) with (range 0 15 ++ [15]).
    rewrite for_each_app, (bind_return _ _ s _ _ Hfirst).
    cbn [for_each]. now apply bind_raise.
  - intros j b Hb. subst buf'.
    rewrite lookup_prescribed_turns, Hb.
    apply lookup_lt_Some in Hb. destruct Hwf as [Hlen _].
    now rewrite (proj2 (turns_mask_plane g d j ltac:(lia))).
Qed.

Lemma set_glyph_bit15_index_error_witness :
  is_ht16k33 (HT16K33Segment14.new [] 0x70 false).2 = false
  ∧ wf_buffer (buffer (HT16K33Segment14.new [] 0x70 false).2)
  ∧ 0 ≤ 1 < 4 ∧ 0 ≤ 0x8001 < 0xFFFF ∧ Z.testbit 0x8001 15 = true
  ∧ HT16K33Segment14.set_glyph 0x8001 1 false
      (HT16K33Segment14.new [] 0x70 false).2
    = (Raise IndexError,
       with_buffer (HT16K33Segment14.new [] 0x70 false).2
         [2; 0; 0; 0; 0; 0; 0; 0; 0; 0; 0; 0; 0; 0; 0; 0]).
Proof.
  split; [reflexivity|]. split; [apply wf_buffer_bytearray|].
  split; [lia|]. split; [lia|]. split; [reflexivity|].
  apply (set_glyph_bit15_index_error
           (HT16K33Segment14.new [] 0x70 false).2 0x8001 1 false);
    [reflexivity | apply wf_buffer_bytearray | lia | lia | reflexivity].
Defined.

(** ** 7-segment driver: characters *)

(** The chain of tests of [set_character] against the specification's map.
    A string with no index leaves the chain with [0xFF], unless it is the
    empty string or a longer piece of "abcdef" or "0123456789": the [in]
    test lets those through and [ord] then raises. *)
Lemma char_index_lowercase char s :
  HT16K33Segment.char_index char s
  = match lowercase_index char with
    | Some k => (Return k, s)
    | None =>
        if str_in char "abcdef" || str_in char "0123456789"
        then (Raise TypeError, s)
        else (Return 0xFF, s)
    end.
Proof.
  unfold HT16K33Segment.char_index, lowercase_index.
  destruct (String.eqb char "deg"); [done|].
  destruct char as [|c1 [|c2 rest]].
  - reflexivity.
  - destruct c1 as [[] [] [] [] [] [] [] []]; reflexivity.
  - cbn [String.eqb].
    destruct (Ascii.eqb c1 "-"), (Ascii.eqb c1 " ");
      destruct (str_in _ "abcdef"); try done;
      now destruct (str_in _ "0123456789").
Qed.

Lemma lowercase_index_range char k :
  lowercase_index char = Some k → 0 ≤ k < 19.
Proof.
  unfold lowercase_index.
  destruct (String.eqb char "deg"); [intros [= <-]; lia|].
  destruct (String.eqb char "-"); [intros [= <-]; lia|].
  destruct (String.eqb char " "); [intros [= <-]; lia|].
  destruct char as [|c [|]]; [done| |done]. cbv zeta.
  destruct (Z.leb_spec 97 (ord_ascii c)), (Z.leb_spec (ord_ascii c) 102);
    cbn [andb]; try (intros [= <-]; lia);
    destruct (Z.leb_spec 48 (ord_ascii c)), (Z.leb_spec (ord_ascii c) 57);
    cbn [andb]; (done || (intros [= <-]; lia)).
Qed.

Lemma charset_bytes : Forall is_byte HT16K33Segment.CHARSET.
Proof.
  unfold HT16K33Segment.CHARSET.
  repeat (apply Forall_cons; split; [unfold is_byte; lia|]).
  now apply Forall_nil.
Qed.

Lemma pos_lookup d :
  0 ≤ d < 4 →
  ∃ p, HT16K33Segment.POS !! Z.to_nat d = Some p ∧ 0 ≤ p < 16.
Proof.
  intros Hd. apply digit_cases in Hd.
  repeat destruct Hd as [-> | Hd]; try subst d;
    eexists; (split; [reflexivity | lia]).
Qed.

(** Storing a byte at a digit position and, for a dot, ORing 0x80 into it. *)
Lemma store_digit_run (p g : Z) (has_dot : bool) d s :
  wf_buffer (buffer s) → 0 ≤ d →
  HT16K33Segment.POS !! Z.to_nat d = Some p → 0 ≤ p < 16 → is_byte g →
  (setitem p g;;
   if has_dot then p ← seq_getitem HT16K33Segment.POS d; ior_item p 0x80
   else skip) s
  = (Return tt,
     with_buffer s (<[Z.to_nat p := if has_dot then Z.lor g 0x80 else g]>
                      (buffer s))).
Proof.
  intros [Hlen Hall] Hd Hp Hp16 Hg.
  rewrite (bind_return _ _ s tt _
             (setitem_run p g s ltac:(rewrite Hlen; lia) Hg)).
  destruct has_dot; [|done].
  rewrite (bind_return _ _ _ p _ (seq_getitem_run _ d p _ Hd Hp)).
  rewrite (ior_item_run p 0x80 g).
  - cbn [buffer with_buffer]. now rewrite list_insert_insert_eq.
  - lia.
  - cbn [buffer with_buffer]. apply list_lookup_insert_eq. lia.
  - apply is_byte_lor; [done | unfold is_byte; lia].
Qed.

Lemma set_character_run (char : string) (d : Z) (has_dot : bool) s :
  wf_buffer (buffer s) → 0 ≤ d < 4 →
  match spec_index char with
  | Some k =>
      ∃ p g,
        HT16K33Segment.POS !! Z.to_nat d = Some p
        ∧ HT16K33Segment.CHARSET !! Z.to_nat k = Some g
        ∧ HT16K33Segment.set_character char d has_dot s
          = (Return tt,
             with_buffer s
               (<[Z.to_nat p := if has_dot then Z.lor g 0x80 else g]>
                  (buffer s)))
  | None =>
      HT16K33Segment.set_character char d has_dot s
      = (Raise
           (if str_in (lower char) "abcdef"
               || str_in (lower char) "0123456789"
            then TypeError
            else AssertionError
                   "ERROR - Invalid char string set in set_character()"),
         s)
  end.
Proof.
  intros Hwf Hd. unfold HT16K33Segment.set_character, spec_index.
  rewrite (bind_return _ _ s tt s)
    by (apply assert_true, in_range_true, Hd).
  cbv zeta.
  pose proof (char_index_lowercase (lower char) s) as Hidx.
  pose proof (lowercase_index_range (lower char)) as Hrange.
  destruct (lowercase_index (lower char)) as [k|].
  - specialize (Hrange k eq_refl).
    destruct (pos_lookup d Hd) as (p & Hp & Hp16).
    destruct (lookup_lt_is_Some_2 HT16K33Segment.CHARSET (Z.to_nat k))
      as [g Hg]; [cbn; lia|].
    exists p, g. split; [done|]. split; [done|].
    rewrite (bind_return _ _ s k s Hidx).
    rewrite (bind_return _ _ s tt s)
      by (apply assert_true, negb_true_iff, Z.eqb_neq; lia).
    rewrite (bind_return _ _ s p s)
      by (apply seq_getitem_run; [lia | done]).
    rewrite (bind_return _ _ s g s)
      by (apply seq_getitem_run; [lia | done]).
    apply store_digit_run; try done; [lia|].
    eapply Forall_lookup_1; [apply charset_bytes | done].
  - destruct (str_in (lower char) "abcdef"
              || str_in (lower char) "0123456789").
    + now apply bind_raise.
    + rewrite (bind_return _ _ s 0xFF s Hidx).
      now apply bind_raise.
Qed.

(** [set_character] on every string: on the 7-segment driver, for a digit
    in [0, 4), it lowercases its input and resolves "deg" to index 0x11, '-' to 0x10,
    ' ' to 0x12, 'a'-'f' to 10-15 and '0'-'9' to 0-9; with such an index the
    call returns and [buffer[POS[digit]]] is [CHARSET[index]], ORed with 0x80
    when [has_dot] holds; any other input makes the call raise with the
    buffer untouched: the "Invalid char string" assertion, or, for the empty
    string and for a longer piece of "abcdef" or "0123456789", the TypeError
    of [ord], which those reach first.  In particular '5' at digit 0 stores
    [CHARSET[5] = 0x6D] at [buffer[POS[0]]], and 0xED with the dot. *)
Theorem set_character_7segment (s : device) (char : string) (d : Z)
        (has_dot : bool) :
  wf_buffer (buffer s) → 0 ≤ d < 4 →
  match spec_index char with
  | Some k =>
      ∃ p g,
        HT16K33Segment.POS !! Z.to_nat d = Some p
        ∧ HT16K33Segment.CHARSET !! Z.to_nat k = Some g
        ∧ HT16K33Segment.set_character char d has_dot s
          = (Return tt,
             with_buffer s
               (<[Z.to_nat p := if has_dot then Z.lor g 0x80 else g]>
                  (buffer s)))
  | None =>
      HT16K33Segment.set_character char d has_dot s
      = (Raise
           (if str_in (lower char) "abcdef"
               || str_in (lower char) "0123456789"
            then TypeError
            else AssertionError
                   "ERROR - Invalid char string set in set_character()"),
         s)
  end
  ∧ (spec_index "deg" = Some 0x11 ∧ spec_index "DEG" = Some 0x11
     ∧ spec_index "-" = Some 0x10 ∧ spec_index " " = Some 0x12
     ∧ spec_index <$> ["a"%string; "b"%string; "c"%string; "d"%string;
                       "e"%string; "f"%string]
       = Some <$> [10; 11; 12; 13; 14; 15]
     ∧ spec_index <$> ["A"%string; "B"%string; "C"%string; "D"%string;
                       "E"%string; "F"%string]
       = Some <$> [10; 11; 12; 13; 14; 15]
     ∧ spec_index <$> ["0"%string; "1"%string; "2"%string; "3"%string;
                       "4"%string; "5"%string; "6"%string; "7"%string;
                       "8"%string; "9"%string]
       = Some <$> [0; 1; 2; 3; 4; 5; 6; 7; 8; 9])
  ∧ (∀ c : ascii,
        spec_index (String c EmptyString) = None →
        HT16K33Segment.set_character (String c EmptyString) d has_dot s
        = (Raise (AssertionError
                    "ERROR - Invalid char string set in set_character()"),
           s))
  ∧ HT16K33Segment.POS !! 0%nat = Some 0
  ∧ HT16K33Segment.CHARSET !! 5%nat = Some 0x6D
  ∧ HT16K33Segment.set_character "5" 0 false s
    = (Return tt, with_buffer s (<[0%nat := 0x6D]> (buffer s)))
  ∧ HT16K33Segment.set_character "5" 0 true s
    = (Return tt, with_buffer s (<[0%nat := 0xED]> (buffer s))).
Proof.
  intros Hwf Hd. split; [now apply set_character_run|].
  split; [by repeat split|]. split; [|split; [done|split; [done|]]].
  - intros c Hc.
    pose proof (set_character_run (String c EmptyString) d has_dot s Hwf Hd)
      as Hrun.
    rewrite Hc in Hrun. rewrite Hrun. clear Hrun. revert Hc.
    destruct c as [[] [] [] [] [] [] [] []]; (discriminate || reflexivity).
  - split.
    + destruct (set_character_run "5" 0 false s Hwf ltac:(lia))
        as (p & g & Hp & Hg & Hrun).
      injection Hp as <-. injection Hg as <-. exact Hrun.
    + destruct (set_character_run "5" 0 true s Hwf ltac:(lia))
        as (p & g & Hp & Hg & Hrun).
      injection Hp as <-. injection Hg as <-. exact Hrun.
Qed.

Lemma set_character_7segment_witness :
  wf_buffer (buffer (HT16K33Segment.new [] 0x70).2) ∧ 0 ≤ 0 < 4
  ∧ HT16K33Segment.set_character "5" 0 true (HT16K33Segment.new [] 0x70).2
    = (Return tt,
       with_buffer (HT16K33Segment.new [] 0x70).2
         (<[0%nat := 0xED]> (buffer (HT16K33Segment.new [] 0x70).2))).
Proof.
  split; [apply wf_buffer_bytearray|]. split; [lia|].
  apply (set_character_7segment (HT16K33Segment.new [] 0x70).2 "5" 0 true);
    [apply wf_buffer_bytearray | lia].
Defined.

(** C4 holds for the characters of the charset and for every other single
    character, and fails at the empty string and at a longer piece of
    "abcdef" or "0123456789": such a string has no charset index, yet the
    substring test [in] lets it through to [ord], so the call raises
    TypeError and never reaches the "Invalid char string" assertion, which a
    single character outside the charset, such as 'g', does fail.  The
    buffer is untouched either way. *)
Theorem set_character_piece_raises_type_error (s : device) (d : Z)
        (has_dot : bool) :
  0 ≤ d < 4 →
  spec_index "ab" = None ∧ spec_index "" = None ∧ spec_index "12" = None
  ∧ str_in "ab" "abcdef" = true ∧ str_in "" "abcdef" = true
  ∧ str_in "12" "0123456789" = true
  ∧ HT16K33Segment.set_character "ab" d has_dot s = (Raise TypeError, s)
  ∧ HT16K33Segment.set_character "" d has_dot s = (Raise TypeError, s)
  ∧ HT16K33Segment.set_character "12" d has_dot s = (Raise TypeError, s)
  ∧ HT16K33Segment.set_character "g" d has_dot s
    = (Raise (AssertionError
                "ERROR - Invalid char string set in set_character()"), s).
Proof.
  intros Hd. do 6 (split; [reflexivity|]).
  unfold HT16K33Segment.set_character.
  rewrite !(bind_return _ _ s tt s)
    by (apply assert_true, in_range_true, Hd).
  repeat split; reflexivity.
Qed.

Lemma set_character_piece_raises_type_error_witness :
  0 ≤ 0 < 4
  ∧ HT16K33Segment.set_character "ab" 0 false (HT16K33Segment.new [] 0x70).2
    = (Raise TypeError, (HT16K33Segment.new [] 0x70).2).
Proof.
  split; [lia|].
  destruct (set_character_piece_raises_type_error
              (HT16K33Segment.new [] 0x70).2 0 false ltac:(lia))
    as (_ & _ & _ & _ & _ & _ & H & _).
  exact H.
Defined.

(** ** 14-segment driver: characters *)

Lemma if_false_false (b : bool) : (if b then false else false) = false.
Proof. now destruct b. Qed.

(** The chain of tests of the 14-segment [set_character] against the
    specification's map.  As on the 7-segment driver, the empty string and
    longer pieces of the three alphabets pass an [in] test and make [ord]
    raise. *)
Lemma char_index14_spec char s :
  HT16K33Segment14.char_index char s
  = match spec_index14 char with
    | Some k => (Return k, s)
    | None =>
        if str_in char "0123456789"
           || str_in char "ABCDEFGHIJKLMNOPQRSTUVWXYZ"
           || str_in char "abcdefghijklmnopqrstuvwxyz"
        then (Raise TypeError, s)
        else (Return 0xFFFF, s)
    end.
Proof.
  unfold HT16K33Segment14.char_index, spec_index14.
  destruct char as [|c1 [|c2 rest]].
  - reflexivity.
  - destruct c1 as [[] [] [] [] [] [] [] []]; reflexivity.
  - cbn [String.eqb]. rewrite !if_false_false.
    destruct (str_in _ "0123456789"); [done|].
    destruct (str_in _ "ABCDEFGHIJKLMNOPQRSTUVWXYZ"); [done|].
    now destruct (str_in _ "abcdefghijklmnopqrstuvwxyz").
Qed.

Lemma assert_char_raises char s :
  ∃ e, HT16K33Segment14.assert_char 0xFFFF char s = (Raise e, s).
Proof.
  unfold HT16K33Segment14.assert_char. cbn [Z.eqb Pos.eqb negb].
  destruct char as [|c [|c' rest]]; eexists; reflexivity.
Qed.

(** ** Invalid arguments *)

Lemma assert_fails {A : Type} c msg (k : M A) s :
  c = false → ∃ e, (assert c msg;; k) s = (Raise e, s).
Proof. intros ->. now eexists. Qed.

Lemma two_asserts_fail {A : Type} c1 c2 msg1 msg2 (k : M A) s :
  c1 && c2 = false →
  ∃ e, (assert c1 msg1;; assert c2 msg2;; k) s = (Raise e, s).
Proof. destruct c1, c2; [done | | |]; intros _; now eexists. Qed.

Lemma ranges_false lo1 hi1 x lo2 hi2 y :
  ¬ (lo1 ≤ x < hi1 ∧ lo2 ≤ y < hi2) →
  ((lo1 <=? x) && (x <? hi1)) && ((lo2 <=? y) && (y <? hi2)) = false.
Proof.
  intros H.
  destruct (Z.leb_spec lo1 x), (Z.ltb_spec x hi1), (Z.leb_spec lo2 y),
    (Z.ltb_spec y hi2); try done.
  exfalso. apply H. lia.
Qed.

Lemma set_character_invalid char d has_dot s :
  ¬ (0 ≤ d < 4) ∨ spec_index char = None →
  ∃ e, HT16K33Segment.set_character char d has_dot s = (Raise e, s).
Proof.
  intros H. unfold HT16K33Segment.set_character.
  destruct ((0 <=? d) && (d <? 4)) eqn:Hd; [|now apply assert_fails].
  destruct H as [H | Hnone].
  { apply andb_true_iff in Hd as [?%Z.leb_le ?%Z.ltb_lt]. lia. }
  rewrite (bind_return _ _ s tt s) by now apply assert_true.
  cbv zeta. pose proof (char_index_lowercase (lower char) s) as Hidx.
  unfold spec_index in Hnone. rewrite Hnone in Hidx.
  destruct (str_in (lower char) "abcdef"
            || str_in (lower char) "0123456789").
  - exists TypeError. now apply bind_raise.
  - rewrite (bind_return _ _ s 0xFF s Hidx). eexists. reflexivity.
Qed.

Lemma set_character14_invalid char d has_dot s :
  ¬ (0 ≤ d < 4) ∨ spec_index14 char = None →
  ∃ e, HT16K33Segment14.set_character char d has_dot s = (Raise e, s).
Proof.
  intros H. unfold HT16K33Segment14.set_character.
  destruct ((0 <=? d) && (d <? 4)) eqn:Hd; [|now apply assert_fails].
  destruct H as [H | Hnone].
  { apply andb_true_iff in Hd as [?%Z.leb_le ?%Z.ltb_lt]. lia. }
  rewrite (bind_return _ _ s tt s) by now apply assert_true.
  pose proof (char_index14_spec char s) as Hidx. rewrite Hnone in Hidx.
  destruct (str_in char "0123456789"
            || str_in char "ABCDEFGHIJKLMNOPQRSTUVWXYZ"
            || str_in char "abcdefghijklmnopqrstuvwxyz").
  - exists TypeError. now apply bind_raise.
  - rewrite (bind_return _ _ s 0xFFFF s Hidx).
    destruct (assert_char_raises char s) as [e He].
    exists e. now apply bind_raise.
Qed.

(** C3: every buffer-writing method of either class raises on an invalid
    argument - a digit outside [0, 4), a glyph outside [0, 0x80) (7-segment)
    or [0, 0xFFFF) (14-segment), a number outside [0, 10), a code outside
    [0, 76), a string with no charset index - and the driver object, its
    buffer included, is then exactly as it was before the call. *)
Theorem invalid_argument_leaves_buffer (s : device) :
  (∀ glyph digit has_dot,
      ¬ (0 ≤ digit < 4 ∧ 0 ≤ glyph < 0x80) →
      ∃ e, HT16K33Segment.set_glyph glyph digit has_dot s = (Raise e, s))
  ∧ (∀ number digit has_dot,
        ¬ (0 ≤ digit < 4 ∧ 0 ≤ number < 10) →
        ∃ e, HT16K33Segment.set_number number digit has_dot s = (Raise e, s))
  ∧ (∀ char digit has_dot,
        ¬ (0 ≤ digit < 4) ∨ spec_index char = None →
        ∃ e, HT16K33Segment.set_character char digit has_dot s = (Raise e, s))
  ∧ (∀ glyph digit has_dot,
        ¬ (0 ≤ digit < 4 ∧ 0 ≤ glyph < 0xFFFF) →
        ∃ e, HT16K33Segment14.set_glyph glyph digit has_dot s = (Raise e, s))
  ∧ (∀ number digit has_dot,
        ¬ (0 ≤ digit < 4 ∧ 0 ≤ number < 10) →
        ∃ e, HT16K33Segment14.set_number number digit has_dot s
             = (Raise e, s))
  ∧ (∀ char digit has_dot,
        ¬ (0 ≤ digit < 4) ∨ spec_index14 char = None →
        ∃ e, HT16K33Segment14.set_character char digit has_dot s
             = (Raise e, s))
  ∧ (∀ code digit has_dot,
        ¬ (0 ≤ digit < 4 ∧ 0 ≤ code < 76) →
        ∃ e, HT16K33Segment14.set_code code digit has_dot s = (Raise e, s)).
Proof.
  repeat split.
  - intros glyph digit has_dot H. now apply two_asserts_fail, ranges_false.
  - intros number digit has_dot H. now apply two_asserts_fail, ranges_false.
  - intros char digit has_dot H. now apply set_character_invalid.
  - intros glyph digit has_dot H. now apply two_asserts_fail, ranges_false.
  - intros number digit has_dot H. now apply two_asserts_fail, ranges_false.
  - intros char digit has_dot H. now apply set_character14_invalid.
  - intros code digit has_dot H. now apply two_asserts_fail, ranges_false.
Qed.

Lemma invalid_argument_leaves_buffer_witness :
  spec_index "!" = None
  ∧ ∃ e, HT16K33Segment.set_character "!" 0 false (HT16K33Segment.new [] 0x70).2
         = (Raise e, (HT16K33Segment.new [] 0x70).2).
Proof.
  split; [reflexivity|].
  destruct (invalid_argument_leaves_buffer (HT16K33Segment.new [] 0x70).2)
    as (_ & _ & H & _).
  exact (H "!"%string 0 false (or_intror eq_refl)).
Defined.

(** ** Valid characters and numbers reach the digit writer *)

Lemma spec_index14_range char k : spec_index14 char = Some k → 0 ≤ k < 76.
Proof.
  unfold spec_index14.
  do 7 (match goal with
        | |- context [String.eqb char ?x] =>
            destruct (String.eqb char x); [intros [= <-]; lia|]
        end).
  destruct char as [|c [|]]; [done| |done]. cbv zeta.
  destruct (Z.leb_spec 48 (ord_ascii c)), (Z.leb_spec (ord_ascii c) 57);
    cbn [andb]; try (intros [= <-]; lia);
    destruct (Z.leb_spec 65 (ord_ascii c)), (Z.leb_spec (ord_ascii c) 90);
    cbn [andb]; try (intros [= <-]; lia);
    destruct (Z.leb_spec 97 (ord_ascii c)), (Z.leb_spec (ord_ascii c) 122);
    cbn [andb]; (done || (intros [= <-]; lia)).
Qed.

(** Every entry of the 14-segment charset is a glyph below 0x4000: neither
    the dot bit nor bit 15 is set in the table. *)
Lemma charset_glyph_run code s :
  0 ≤ code < 76 →
  ∃ g, HT16K33Segment14.charset_glyph code s = (Return g, s)
       ∧ 0 ≤ g < 0x4000.
Proof.
  intros Hc.
  assert (H : forallb
                (λ k, match HT16K33Segment14.charset_glyph k s with
                      | (Return g, _) => (0 <=? g) && (g <? 0x4000)
                      | (Raise _, _) => false
                      end) (range 0 76) = true) by (vm_compute; reflexivity).
  rewrite forallb_forall in H. specialize (H code (elem_of_range _ _ _ Hc)).
  pose proof (read_only_charset_glyph code s) as Hro.
  destruct (HT16K33Segment14.charset_glyph code s) as [[g|e] s'];
    [|done]. cbn in Hro. subst s'. exists g. split; [done|].
  apply andb_true_iff in H as [?%Z.leb_le ?%Z.ltb_lt]. lia.
Qed.

(** A string with a charset index is handed, as its glyph, to the digit
    writer, which then succeeds under either wiring (C1, C2). *)
Lemma set_character14_run char k d has_dot s :
  0 ≤ d < 4 → spec_index14 char = Some k →
  ∃ g, HT16K33Segment14.charset_glyph k s = (Return g, s)
       ∧ 0 ≤ g < 0x4000
       ∧ HT16K33Segment14.set_character char d has_dot s
         = HT16K33Segment14._set_digit g d has_dot s.
Proof.
  intros Hd Hk. pose proof (spec_index14_range _ _ Hk) as Hr.
  destruct (charset_glyph_run k s Hr) as (g & Hg & Hg').
  exists g. split; [done|]. split; [done|].
  unfold HT16K33Segment14.set_character.
  rewrite (bind_return _ _ s tt s)
    by (apply assert_true, in_range_true, Hd).
  pose proof (char_index14_spec char s) as Hidx. rewrite Hk in Hidx.
  rewrite (bind_return _ _ s k s Hidx).
  assert (Ha : HT16K33Segment14.assert_char k char s = (Return tt, s)).
  { unfold HT16K33Segment14.assert_char.
    replace (k =? 0xFFFF) with false; [done|].
    symmetry. apply Z.eqb_neq. lia. }
  rewrite (bind_return _ _ s tt s Ha).
  now rewrite (bind_return _ _ s g s Hg).
Qed.

(** [set_number] passes the decimal digit of a valid number on. *)
Lemma str_digit_index number :
  0 ≤ number < 10 →
  spec_index (str number) = Some number
  ∧ spec_index14 (str number) = Some number.
Proof.
  intros H.
  assert (number = 0 ∨ number = 1 ∨ number = 2 ∨ number = 3 ∨ number = 4
          ∨ number = 5 ∨ number = 6 ∨ number = 7 ∨ number = 8 ∨ number = 9)
    as Hn by lia.
  repeat destruct Hn as [-> | Hn]; try subst number; split; reflexivity.
Qed.

(** * Further properties of the drivers *)

(** ** The generic controller: brightness, power-off, construction *)

(** [set_brightness] never fails: a level outside 0..15 is replaced by 15,
    the level is recorded, and the one command byte sent is [0xE0 | level],
    which lies in 0xE0..0xEF. *)
Theorem set_brightness_clamps (b : Z) (s : device) :
  ∃ level,
    level = (if (b <? 0) || (b >? 15) then 15 else b)
    ∧ 0 ≤ level ≤ 15
    ∧ Z.lor 0xE0 level = 0xE0 + level
    ∧ set_brightness b s
      = (Return tt,
         with_i2c (with_brightness s level)
                  (i2c s ++ [(address s, [0xE0 + level])])).
Proof.
  unfold set_brightness. cbv zeta.
  set (level := if (b <? 0) || (b >? 15) then 15 else b).
  assert (Hl : 0 ≤ level ≤ 15).
  { subst level. destruct (Z.ltb_spec b 0); cbn [orb]; [lia|].
    destruct (Z.gtb_spec b 15); lia. }
  assert (Hor : Z.lor 0xE0 level = 0xE0 + level).
  { assert (level = 0 ∨ level = 1 ∨ level = 2 ∨ level = 3 ∨ level = 4
            ∨ level = 5 ∨ level = 6 ∨ level = 7 ∨ level = 8 ∨ level = 9
            ∨ level = 10 ∨ level = 11 ∨ level = 12 ∨ level = 13
            ∨ level = 14 ∨ level = 15) as H by lia.
    clearbody level.
    repeat destruct H as [-> | H]; try subst level; reflexivity. }
  exists level. split; [done|]. split; [done|]. split; [done|].
  rewrite (bind_return _ _ s tt (with_brightness s level)) by reflexivity.
  unfold HT16K33_GENERIC_CMD_BRIGHTNESS. rewrite Hor.
  rewrite write_cmd_run by lia. reflexivity.
Qed.

Lemma power_off_run s :
  power_off s
  = (Return tt, with_i2c s (i2c s ++ [(address s, [0x80]); (address s, [0x20])])).
Proof.
  unfold power_off.
  rewrite (bind_return _ _ s tt _ (write_cmd_run 0x80 s ltac:(lia))).
  rewrite write_cmd_run by (unfold HT16K33_GENERIC_SYSTEM_OFF; lia).
  unfold with_i2c. cbn. now rewrite <- app_assoc.
Qed.

(** [power_off] sends display-off (0x80) and then system-off (0x20): the
    commands of [power_on] with their low bit cleared, in the opposite
    order; a power cycle puts 0x21, 0x81, 0x80, 0x20 on the bus and leaves
    the rest of the object alone. *)
Theorem power_cycle_trace (s : device) :
  power_off s
  = (Return tt,
     with_i2c s (i2c s ++ [(address s, [0x80]); (address s, [0x20])]))
  ∧ (power_on;; power_off) s
    = (Return tt,
       with_i2c s (i2c s ++ [(address s, [0x21]); (address s, [0x81]);
                             (address s, [0x80]); (address s, [0x20])])).
Proof.
  split; [apply power_off_run|].
  rewrite (bind_return _ _ s tt _ (power_on_run s)), power_off_run.
  unfold with_i2c. cbn. now rewrite <- app_assoc.
Qed.

(** A constructor called with an I2C address outside [0, 0x80) raises the
    address assertion before the bus is attached: nothing is written to the
    bus, and the object is left with its freshly allocated zero buffer and
    the class defaults for the rest. *)
Theorem constructor_rejects_address (bus : list transaction) (addr : Z)
        (h : bool) :
  ¬ (0 ≤ addr < 0x80) →
  HT16K33Segment.new bus addr
  = (Raise (AssertionError "ERROR - Invalid I2C address in HT16K33()"),
     Device [] 0 15 0 None (bytearray 16) false false)
  ∧ HT16K33Segment14.new bus addr h
    = (Raise (AssertionError "ERROR - Invalid I2C address in HT16K33()"),
       Device [] 0 15 0 None (bytearray 16) false h).
Proof.
  intros Ha. apply (in_range_false 0 0x80) in Ha.
  unfold HT16K33Segment.new, HT16K33Segment.__init__,
    HT16K33Segment14.new, HT16K33Segment14.__init__, HT16K33.__init__.
  split.
  - erewrite bind_return by reflexivity.
    erewrite bind_return by reflexivity.
    now apply bind_raise, assert_false.
  - erewrite bind_return by reflexivity.
    erewrite bind_return by reflexivity.
    now apply bind_raise, assert_false.
Qed.

Lemma constructor_rejects_address_witness :
  ¬ (0 ≤ 0x80 < 0x80)
  ∧ HT16K33Segment14.new [(0x70, [0x21])] 0x80 true
    = (Raise (AssertionError "ERROR - Invalid I2C address in HT16K33()"),
       Device [] 0 15 0 None (bytearray 16) false true).
Proof.
  split; [lia|].
  apply (constructor_rejects_address [(0x70, [0x21])] 0x80 true). lia.
Defined.

(** ** Rendering and clearing *)

(** [draw] and [update] of the generic class, which the 14-segment driver
    inherits, send one transaction of [len(buffer) + 1] bytes - a zero byte
    followed by the buffer - and change nothing else of the object. *)
Theorem render_payload (s : device) :
  wf_buffer (buffer s) →
  HT16K33.draw s
  = (Return tt, with_i2c s (i2c s ++ [(address s, 0 :: buffer s)]))
  ∧ HT16K33.update s = HT16K33.draw s
  ∧ length (0 :: buffer s) = 17%nat
  ∧ buffer (HT16K33.draw s).2 = buffer s.
Proof.
  intros [Hlen Hall]. unfold HT16K33.draw, HT16K33.update.
  rewrite render_run by done. cbn [length]. now rewrite Hlen.
Qed.

Lemma render_payload_witness :
  wf_buffer (buffer (HT16K33Segment14.new [] 0x70 false).2)
  ∧ HT16K33.draw (HT16K33Segment14.new [] 0x70 false).2
    = (Return tt,
       Device [(0x70, [0x21]); (0x70, [0x81]); (0x70, 0 :: bytearray 16)]
              0x70 15 0 None (bytearray 16) false false).
Proof.
  split; [apply wf_buffer_bytearray|].
  apply (render_payload (HT16K33Segment14.new [] 0x70 false).2).
  apply wf_buffer_bytearray.
Defined.

Lemma clear_loop_run m :
  ∀ (k : nat) s,
    length (buffer s) = (k + m)%nat →
    for_each (range (Z.of_nat k) (Z.of_nat k + Z.of_nat m))
             (λ i _, setitem i 0x00) tt s
    = (Return tt, with_buffer s (take k (buffer s) ++ replicate m 0)).
Proof.
  induction m as [|m IH]; intros k s Hlen.
  - replace (Z.of_nat k + Z.of_nat 0) with (Z.of_nat k) by lia.
    unfold range. rewrite Z.sub_diag. cbn.
    rewrite app_nil_r, take_ge by lia. now rewrite with_buffer_id.
  - rewrite range_cons by lia. cbn [for_each].
    rewrite (bind_return _ _ s tt _
               (setitem_run (Z.of_nat k) 0 s ltac:(lia)
                            ltac:(unfold is_byte; lia))).
    rewrite Nat2Z.id.
    replace (Z.of_nat k + Z.of_nat (S m))
      with (Z.of_nat (S k) + Z.of_nat m) by lia.
    replace (Z.of_nat k + 1) with (Z.of_nat (S k)) by lia.
    rewrite IH by (cbn [buffer with_buffer]; rewrite length_insert; lia).
    cbn [buffer with_buffer]. rewrite with_buffer_twice. f_equal. f_equal.
    rewrite (take_S_r _ _ 0) by (apply list_lookup_insert_eq; lia).
    rewrite take_insert_ge by lia. now rewrite <- app_assoc.
Qed.

(** [clear] never fails and sets every item of the buffer, whatever its
    length and contents, to zero; nothing else of the object changes, and a
    [draw] after it sends a zero byte followed by that many zeros. *)
Theorem clear_zeroes (s : device) :
  clear s = (Return tt, with_buffer s (replicate (length (buffer s)) 0))
  ∧ (clear;; HT16K33.draw) s
    = (Return tt,
       with_i2c (with_buffer s (replicate (length (buffer s)) 0))
                (i2c s ++ [(address s,
                            replicate (S (length (buffer s))) 0)])).
Proof.
  assert (Hclear : clear s
                   = (Return tt,
                      with_buffer s (replicate (length (buffer s)) 0))).
  { unfold clear.
    rewrite (bind_return _ _ s (length (buffer s)) s) by reflexivity.
    apply (clear_loop_run (length (buffer s)) 0 s). lia. }
  split; [done|].
  rewrite (bind_return _ _ s tt _ Hclear). unfold HT16K33.draw.
  rewrite render_run; [done|]. cbn [buffer with_buffer].
  apply Forall_replicate. unfold is_byte. lia.
Qed.

(** ** Blink rate: what is sent and what is refused *)

Lemma pynum_in_int z :
  pynum_in (PyInt z) [PyInt 0; PyFloat (1 # 2); PyInt 1; PyInt 2] = true →
  z = 0 ∨ z = 1 ∨ z = 2.
Proof.
  unfold pynum_in, pynum_eqb. cbn [existsb pynum_value].
  rewrite !orb_true_iff, !Qeq_bool_iff. unfold Qeq. cbn.
  intros [H | [H | [H | [H | H]]]]; (done || lia).
Qed.

(** The integer rates 0, 1 and 2 are the only arguments [set_blink_rate]
    carries out: it records the rate and sends the single command byte
    [0x81 | rate << 1], that is 0x81, 0x83 or 0x85. *)
Theorem blink_rate_command (rate : Z) (s : device) :
  rate = 0 ∨ rate = 1 ∨ rate = 2 →
  set_blink_rate (PyInt rate) s
  = (Return tt,
     with_i2c (with_blink_rate s rate)
              (i2c s ++ [(address s, [0x81 + 2 * rate])])).
Proof. intros [-> | [-> | ->]]; reflexivity. Qed.

Lemma blink_rate_command_witness :
  (2 = 0 ∨ 2 = 1 ∨ 2 = 2)
  ∧ set_blink_rate (PyInt 2) (HT16K33Segment.new [] 0x70).2
    = (Return tt,
       Device [(0x70, [0x21]); (0x70, [0x81]); (0x70, [0x85])]
              0x70 15 0 (Some 2) (bytearray 16) false false).
Proof.
  split; [lia|].
  apply (blink_rate_command 2 (HT16K33Segment.new [] 0x70).2). lia.
Defined.

(** Any other rate - every float, 1.0 and 2.0 included, and every integer
    but 0, 1, 2 - makes [set_blink_rate] raise, by its assertion or by the
    bit operator applied to a float, with nothing sent and no attribute of
    the object changed. *)
Theorem blink_rate_refused (rate : pynum) (s : device) :
  (∀ z, rate = PyInt z → z ≠ 0 ∧ z ≠ 1 ∧ z ≠ 2) →
  ∃ e, set_blink_rate rate s = (Raise e, s).
Proof.
  intros Hrate. unfold set_blink_rate.
  destruct (pynum_in rate [PyInt 0; PyFloat (1 # 2); PyInt 1; PyInt 2])
    eqn:Hin; [|now apply assert_fails].
  destruct rate as [z|q].
  - apply pynum_in_int in Hin. destruct (Hrate z eq_refl). lia.
  - exists TypeError.
    rewrite (bind_return _ _ s tt s) by reflexivity.
    now apply bind_raise.
Qed.

Lemma blink_rate_refused_witness :
  (∀ z, PyFloat 1 = PyInt z → z ≠ 0 ∧ z ≠ 1 ∧ z ≠ 2)
  ∧ ∃ e, set_blink_rate (PyFloat 1) (HT16K33Segment.new [] 0x70).2
         = (Raise e, (HT16K33Segment.new [] 0x70).2).
Proof.
  split; [discriminate|].
  apply (blink_rate_refused (PyFloat 1) (HT16K33Segment.new [] 0x70).2).
  discriminate.
Defined.

(** ** The setters change the buffer only, and keep it a byte array *)

Lemma buffer_only_read_only {A : Type} (m : M A) :
  read_only m → buffer_only m.
Proof.
  intros Hm s Hwf. exists (buffer s). now rewrite Hm, with_buffer_id.
Qed.

Lemma buffer_only_bind {A B : Type} (m : M A) (f : A → M B) :
  buffer_only m → (∀ a, buffer_only (f a)) → buffer_only (m ≫= f).
Proof.
  intros Hm Hf s Hwf. unfold mbind, M_bind.
  destruct (Hm s Hwf) as (buf1 & H1 & Hwf1).
  destruct (m s) as [[a|e] s1]; cbn [snd] in *; subst s1.
  - destruct (Hf a (with_buffer s buf1) Hwf1) as (buf2 & H2 & Hwf2).
    exists buf2. now rewrite H2.
  - now exists buf1.
Qed.

Lemma buffer_only_setitem i v : buffer_only (setitem i v).
Proof.
  intros s Hwf. unfold setitem, mbind, M_bind, get. cbn [fst snd].
  destruct (norm_index _ i) as [n|];
    [|exists (buffer s); now rewrite with_buffer_id].
  destruct (Z.leb_spec 0 v), (Z.ltb_spec v 256); cbn [andb];
    try (exists (buffer s); now rewrite with_buffer_id).
  eexists. split; [reflexivity|]. now apply wf_buffer_insert.
Qed.

Lemma read_only_getitem i : read_only (getitem i).
Proof.
  unfold getitem. apply read_only_bind; [done|].
  intros buf. apply read_only_seq_getitem.
Qed.

Lemma buffer_only_ior_item i m : buffer_only (ior_item i m).
Proof.
  apply buffer_only_bind;
    [apply buffer_only_read_only, read_only_getitem|].
  intros b. apply buffer_only_setitem.
Qed.

Lemma buffer_only_iand_item i m : buffer_only (iand_item i m).
Proof.
  apply buffer_only_bind;
    [apply buffer_only_read_only, read_only_getitem|].
  intros b. apply buffer_only_setitem.
Qed.

Lemma buffer_only_for_each {A St : Type} (l : list A) body :
  (∀ x (st : St), buffer_only (body x st)) →
  ∀ st, buffer_only (for_each l body st).
Proof.
  intros Hbody. induction l as [|x l IH]; intros st; cbn [for_each].
  - now apply buffer_only_read_only.
  - apply buffer_only_bind; [apply Hbody | apply IH].
Qed.

Lemma buffer_only_assert c msg : buffer_only (assert c msg).
Proof. apply buffer_only_read_only, read_only_assert. Qed.

Lemma buffer_only_seq_getitem l i : buffer_only (seq_getitem l i).
Proof. apply buffer_only_read_only, read_only_seq_getitem. Qed.

Lemma buffer_only_flag (f : device → bool) (k : bool → M unit) :
  (∀ h, buffer_only (k h)) → buffer_only (get f ≫= k).
Proof.
  intros Hk. apply buffer_only_bind; [now apply buffer_only_read_only|].
  apply Hk.
Qed.

Lemma read_only_char_index7 char : read_only (HT16K33Segment.char_index char).
Proof.
  unfold HT16K33Segment.char_index.
  repeat (case_match; [apply read_only_ret
                      || (apply read_only_bind;
                          [apply read_only_ord | intros; apply read_only_ret])|]).
  apply read_only_ret.
Qed.

Lemma buffer_only_store_digit p g digit (has_dot : bool) :
  buffer_only
    (setitem p g;;
     if has_dot
     then p ← seq_getitem HT16K33Segment.POS digit; ior_item p 0x80
     else skip).
Proof.
  apply buffer_only_bind; [apply buffer_only_setitem|]. intros _.
  destruct has_dot; [|now apply buffer_only_read_only].
  apply buffer_only_bind; [apply buffer_only_seq_getitem|].
  intros p'. apply buffer_only_ior_item.
Qed.

Lemma buffer_only_set_glyph7 glyph digit has_dot :
  buffer_only (HT16K33Segment.set_glyph glyph digit has_dot).
Proof.
  unfold HT16K33Segment.set_glyph.
  apply buffer_only_bind; [apply buffer_only_assert|]. intros _.
  apply buffer_only_bind; [apply buffer_only_assert|]. intros _.
  apply buffer_only_bind; [apply buffer_only_seq_getitem|]. intros p.
  apply buffer_only_store_digit.
Qed.

Lemma buffer_only_set_character7 char digit has_dot :
  buffer_only (HT16K33Segment.set_character char digit has_dot).
Proof.
  unfold HT16K33Segment.set_character.
  apply buffer_only_bind; [apply buffer_only_assert|]. intros _. cbv zeta.
  apply buffer_only_bind;
    [apply buffer_only_read_only, read_only_char_index7|]. intros cv.
  apply buffer_only_bind; [apply buffer_only_assert|]. intros _.
  apply buffer_only_bind; [apply buffer_only_seq_getitem|]. intros p.
  apply buffer_only_bind; [apply buffer_only_seq_getitem|]. intros c.
  apply buffer_only_store_digit.
Qed.

Lemma buffer_only_set_digit value digit has_dot :
  buffer_only (HT16K33Segment14._set_digit value digit has_dot).
Proof.
  unfold HT16K33Segment14._set_digit. apply buffer_only_flag. intros [|].
  - cbv zeta.
    apply buffer_only_bind; [apply buffer_only_setitem|]. intros _.
    apply buffer_only_setitem.
  - apply buffer_only_bind; [|intros; now apply buffer_only_read_only].
    apply buffer_only_for_each. intros i [a d].
    unfold HT16K33Segment14.vk16k33_turn.
    apply buffer_only_bind.
    + destruct (HT16K33Segment14.bit_set value i);
        [|now apply buffer_only_read_only].
      apply buffer_only_bind;
        [apply buffer_only_read_only, read_only_getitem|]. intros b.
      apply buffer_only_bind;
        [apply buffer_only_read_only, read_only_lshift|]. intros m.
      apply buffer_only_setitem.
    + intros _. destruct (i =? 6); now apply buffer_only_read_only.
Qed.

Lemma buffer_only_set_character14 char digit has_dot :
  buffer_only (HT16K33Segment14.set_character char digit has_dot).
Proof.
  unfold HT16K33Segment14.set_character.
  apply buffer_only_bind; [apply buffer_only_assert|]. intros _.
  apply buffer_only_bind;
    [apply buffer_only_read_only, read_only_char_index14|]. intros cv.
  apply buffer_only_bind;
    [apply buffer_only_read_only, read_only_assert_char|]. intros _.
  apply buffer_only_bind;
    [apply buffer_only_read_only, read_only_charset_glyph|]. intros g.
  apply buffer_only_set_digit.
Qed.

(** Whatever their arguments, and whether they return or raise, the buffer
    setters of both drivers and [clear] leave the bus, the address and the
    flags of the object as they were and leave the buffer a sequence of 16
    bytes: an [IndexError] half-way through a glyph does not break the
    buffer either. *)
Theorem setters_change_buffer_only :
  (∀ is_set, buffer_only (HT16K33Segment.set_colon is_set))
  ∧ (∀ glyph digit has_dot,
        buffer_only (HT16K33Segment.set_glyph glyph digit has_dot))
  ∧ (∀ number digit has_dot,
        buffer_only (HT16K33Segment.set_number number digit has_dot))
  ∧ (∀ char digit has_dot,
        buffer_only (HT16K33Segment.set_character char digit has_dot))
  ∧ (∀ glyph digit has_dot,
        buffer_only (HT16K33Segment14.set_glyph glyph digit has_dot))
  ∧ (∀ number digit has_dot,
        buffer_only (HT16K33Segment14.set_number number digit has_dot))
  ∧ (∀ char digit has_dot,
        buffer_only (HT16K33Segment14.set_character char digit has_dot))
  ∧ (∀ code digit has_dot,
        buffer_only (HT16K33Segment14.set_code code digit has_dot))
  ∧ (∀ is_on, buffer_only (HT16K33Segment14.set_colon is_on))
  ∧ (∀ is_on, buffer_only (HT16K33Segment14.set_decimal is_on))
  ∧ buffer_only clear.
Proof.
  repeat split.
  - intros is_set. apply buffer_only_setitem.
  - apply buffer_only_set_glyph7.
  - intros number digit has_dot. unfold HT16K33Segment.set_number.
    apply buffer_only_bind; [apply buffer_only_assert|]. intros _.
    apply buffer_only_bind; [apply buffer_only_assert|]. intros _.
    apply buffer_only_set_character7.
  - apply buffer_only_set_character7.
  - intros glyph digit has_dot. unfold HT16K33Segment14.set_glyph.
    apply buffer_only_bind; [apply buffer_only_assert|]. intros _.
    apply buffer_only_bind; [apply buffer_only_assert|]. intros _.
    apply buffer_only_set_digit.
  - intros number digit has_dot. unfold HT16K33Segment14.set_number.
    apply buffer_only_bind; [apply buffer_only_assert|]. intros _.
    apply buffer_only_bind; [apply buffer_only_assert|]. intros _.
    apply buffer_only_set_character14.
  - apply buffer_only_set_character14.
  - intros code digit has_dot. unfold HT16K33Segment14.set_code.
    apply buffer_only_bind; [apply buffer_only_assert|]. intros _.
    apply buffer_only_bind; [apply buffer_only_assert|]. intros _.
    apply buffer_only_bind;
      [apply buffer_only_read_only, read_only_charset_glyph|]. intros g.
    apply buffer_only_set_digit.
  - intros is_on. unfold HT16K33Segment14.set_colon.
    apply buffer_only_flag. intros [|]; [now apply buffer_only_read_only|].
    destruct is_on; [apply buffer_only_ior_item | apply buffer_only_iand_item].
  - intros is_on. unfold HT16K33Segment14.set_decimal.
    apply buffer_only_flag. intros [|]; [now apply buffer_only_read_only|].
    destruct is_on; [apply buffer_only_ior_item | apply buffer_only_iand_item].
  - unfold clear. apply buffer_only_bind; [now apply buffer_only_read_only|].
    intros n. apply buffer_only_for_each. intros i _.
    apply buffer_only_setitem.
Qed.

(** ** 7-segment driver: glyphs, characters and the colon *)

Lemma set_glyph7_run glyph d has_dot s :
  wf_buffer (buffer s) → 0 ≤ d < 4 → 0 ≤ glyph < 0x80 →
  ∃ p, HT16K33Segment.POS !! Z.to_nat d = Some p ∧ 0 ≤ p < 16
       ∧ HT16K33Segment.set_glyph glyph d has_dot s
         = (Return tt,
            with_buffer s
              (<[Z.to_nat p := if has_dot then Z.lor glyph 0x80 else glyph]>
                 (buffer s))).
Proof.
  intros Hwf Hd Hg. destruct (pos_lookup d Hd) as (p & Hp & Hp16).
  exists p. split; [done|]. split; [done|].
  unfold HT16K33Segment.set_glyph.
  rewrite (bind_return _ _ s tt s)
    by (apply assert_true, in_range_true, Hd).
  rewrite (bind_return _ _ s tt s)
    by (apply assert_true, in_range_true, Hg).
  rewrite (bind_return _ _ s p s) by (apply seq_getitem_run; [lia | done]).
  apply store_digit_run; try done; [lia | unfold is_byte; lia].
Qed.

Lemma glyph7_read_back glyph (has_dot : bool) :
  0 ≤ glyph < 0x80 →
  let b := if has_dot then Z.lor glyph 0x80 else glyph in
  Z.land b 0x7F = glyph ∧ Z.testbit b 7 = has_dot.
Proof.
  intros Hg.
  assert (H : forallb
                (λ g, (Z.land (Z.lor g 0x80) 0x7F =? g)
                      && Z.testbit (Z.lor g 0x80) 7
                      && (Z.land g 0x7F =? g) && negb (Z.testbit g 7))
                (range 0 0x80) = true) by (vm_compute; reflexivity).
  rewrite forallb_forall in H. specialize (H glyph (elem_of_range _ _ _ Hg)).
  repeat (apply andb_true_iff in H as [H ?]).
  destruct has_dot; cbv zeta; split;
    first [now apply Z.eqb_eq | done | now apply negb_true_iff].
Qed.

(** Round trip of a 7-segment glyph: after [set_glyph] with a digit in
    [0, 4) and a glyph in [0, 0x80), the byte at [POS[digit]] gives the
    glyph back in its low seven bits and the dot flag in bit 7, and every
    other byte of the buffer is as before. *)
Theorem set_glyph_7segment_round_trip (s : device) (glyph d : Z)
        (has_dot : bool) :
  wf_buffer (buffer s) → 0 ≤ d < 4 → 0 ≤ glyph < 0x80 →
  ∃ p b buf',
    HT16K33Segment.POS !! Z.to_nat d = Some p
    ∧ HT16K33Segment.set_glyph glyph d has_dot s
      = (Return tt, with_buffer s buf')
    ∧ buf' !! Z.to_nat p = Some b
    ∧ Z.land b 0x7F = glyph ∧ Z.testbit b 7 = has_dot
    ∧ ∀ j : nat, j ≠ Z.to_nat p → buf' !! j = buffer s !! j.
Proof.
  intros Hwf Hd Hg.
  destruct (set_glyph7_run glyph d has_dot s Hwf Hd Hg)
    as (p & Hp & Hp16 & Hrun).
  destruct (glyph7_read_back glyph has_dot Hg) as [Hlow Hbit].
  eexists p, _, _. split; [done|]. split; [exact Hrun|].
  destruct Hwf as [Hlen _].
  split; [apply list_lookup_insert_eq; lia|].
  split; [done|]. split; [done|].
  intros j Hj. now apply list_lookup_insert_ne.
Qed.

Lemma set_glyph_7segment_round_trip_witness :
  wf_buffer (buffer (HT16K33Segment.new [] 0x70).2)
  ∧ 0 ≤ 2 < 4 ∧ 0 ≤ 0x76 < 0x80
  ∧ ∃ p b buf',
      HT16K33Segment.POS !! Z.to_nat 2 = Some p
      ∧ HT16K33Segment.set_glyph 0x76 2 true (HT16K33Segment.new [] 0x70).2
        = (Return tt, with_buffer (HT16K33Segment.new [] 0x70).2 buf')
      ∧ buf' !! Z.to_nat p = Some b
      ∧ Z.land b 0x7F = 0x76 ∧ Z.testbit b 7 = true
      ∧ ∀ j : nat,
          j ≠ Z.to_nat p →
          buf' !! j = buffer (HT16K33Segment.new [] 0x70).2 !! j.
Proof.
  split; [apply wf_buffer_bytearray|]. split; [lia|]. split; [lia|].
  apply (set_glyph_7segment_round_trip (HT16K33Segment.new [] 0x70).2
           0x76 2 true); [apply wf_buffer_bytearray | lia | lia].
Defined.

Lemma charset7_glyph (k : Z) g :
  HT16K33Segment.CHARSET !! Z.to_nat k = Some g → 0 ≤ g < 0x80.
Proof.
  intros Hg.
  assert (H : Forall (λ g, 0 ≤ g < 0x80) HT16K33Segment.CHARSET).
  { unfold HT16K33Segment.CHARSET.
    repeat (apply Forall_cons; split; [lia|]). now apply Forall_nil. }
  eapply Forall_lookup_1 in H; [|exact Hg]. done.
Qed.

(** [set_character] and [set_number] are [set_glyph] of the charset
    pattern: for a string with charset index [k] and for a number [n] in
    [0, 10), the call does exactly what [set_glyph(CHARSET[k], ...)],
    respectively [set_glyph(CHARSET[n], ...)], does. *)
Theorem set_character_is_set_glyph (s : device) (char : string)
        (number k d : Z) (has_dot : bool) :
  wf_buffer (buffer s) → 0 ≤ d < 4 →
  (spec_index char = Some k →
   ∃ g, HT16K33Segment.CHARSET !! Z.to_nat k = Some g
        ∧ HT16K33Segment.set_character char d has_dot s
          = HT16K33Segment.set_glyph g d has_dot s)
  ∧ (0 ≤ number < 10 →
     ∃ g, HT16K33Segment.CHARSET !! Z.to_nat number = Some g
          ∧ HT16K33Segment.set_number number d has_dot s
            = HT16K33Segment.set_glyph g d has_dot s).
Proof.
  intros Hwf Hd.
  assert (Hchar : ∀ c i,
             spec_index c = Some i →
             ∃ g, HT16K33Segment.CHARSET !! Z.to_nat i = Some g
                  ∧ HT16K33Segment.set_character c d has_dot s
                    = HT16K33Segment.set_glyph g d has_dot s).
  { intros c i Hi.
    pose proof (set_character_run c d has_dot s Hwf Hd) as Hrun.
    rewrite Hi in Hrun. destruct Hrun as (p & g & Hp & Hg & Hrun).
    exists g. split; [done|]. rewrite Hrun.
    destruct (set_glyph7_run g d has_dot s Hwf Hd (charset7_glyph _ _ Hg))
      as (p' & Hp' & _ & Hrun').
    rewrite Hrun'. congruence. }
  split; [apply Hchar|].
  intros Hn. destruct (str_digit_index number Hn) as [Hidx _].
  destruct (Hchar _ _ Hidx) as (g & Hg & Hrun).
  exists g. split; [done|]. rewrite <- Hrun.
  unfold HT16K33Segment.set_number.
  rewrite (bind_return _ _ s tt s)
    by (apply assert_true, in_range_true, Hd).
  now rewrite (bind_return _ _ s tt s)
    by (apply assert_true, in_range_true, Hn).
Qed.

Lemma set_character_is_set_glyph_witness :
  wf_buffer (buffer (HT16K33Segment.new [] 0x70).2) ∧ 0 ≤ 3 < 4
  ∧ spec_index "F" = Some 15 ∧ 0 ≤ 7 < 10
  ∧ HT16K33Segment.set_character "F" 3 false (HT16K33Segment.new [] 0x70).2
    = HT16K33Segment.set_glyph 0x71 3 false (HT16K33Segment.new [] 0x70).2
  ∧ HT16K33Segment.set_number 7 3 true (HT16K33Segment.new [] 0x70).2
    = HT16K33Segment.set_glyph 0x07 3 true (HT16K33Segment.new [] 0x70).2.
Proof.
  split; [apply wf_buffer_bytearray|]. split; [lia|].
  split; [reflexivity|]. split; [lia|].
  destruct (set_character_is_set_glyph (HT16K33Segment.new [] 0x70).2
              "F" 7 15 3 false wf_buffer_bytearray ltac:(lia)) as [Hc _].
  destruct (set_character_is_set_glyph (HT16K33Segment.new [] 0x70).2
              "F" 7 15 3 true wf_buffer_bytearray ltac:(lia)) as [_ Hn].
  destruct (Hc eq_refl) as (g & Hg & Hrun).
  destruct (Hn ltac:(lia)) as (g' & Hg' & Hrun').
  injection Hg as <-. injection Hg' as <-. split; [exact Hrun | exact Hrun'].
Defined.

(** On the 7-segment driver a digit holds what was written to it last: a
    second [set_glyph] on the same digit replaces the first, dot included;
    and the colon and the digits do not touch each other: [set_colon] and
    [set_glyph] can be called in either order. *)
Theorem set_glyph_7segment_overwrites (s : device) (g1 g2 d : Z)
        (dot1 dot2 is_set : bool) :
  wf_buffer (buffer s) → 0 ≤ d < 4 → 0 ≤ g1 < 0x80 → 0 ≤ g2 < 0x80 →
  (HT16K33Segment.set_glyph g1 d dot1;; HT16K33Segment.set_glyph g2 d dot2) s
  = HT16K33Segment.set_glyph g2 d dot2 s
  ∧ (HT16K33Segment.set_colon is_set;; HT16K33Segment.set_glyph g1 d dot1) s
    = (HT16K33Segment.set_glyph g1 d dot1;; HT16K33Segment.set_colon is_set) s.
Proof.
  intros Hwf Hd Hg1 Hg2.
  destruct (set_glyph7_run g1 d dot1 s Hwf Hd Hg1) as (p & Hp & Hp16 & Hrun1).
  destruct (set_glyph7_run g2 d dot2 s Hwf Hd Hg2) as (p2 & Hp2 & _ & Hrun2).
  assert (p2 = p) as -> by congruence.
  assert (Hb1 : is_byte (if dot1 then Z.lor g1 0x80 else g1)).
  { destruct dot1; [apply is_byte_lor|]; unfold is_byte; lia. }
  assert (Hcolon : is_byte (if is_set then 0x02 else 0x00))
    by (destruct is_set; unfold is_byte; lia).
  split.
  - rewrite (bind_return _ _ s tt _ Hrun1), Hrun2.
    destruct (set_glyph7_run g2 d dot2 (with_buffer s
                (<[Z.to_nat p := if dot1 then Z.lor g1 0x80 else g1]>
                   (buffer s)))) as (p3 & Hp3 & _ & Hrun3);
      [now apply wf_buffer_insert | done | done |].
    assert (p3 = p) as -> by congruence.
    rewrite Hrun3. cbn [buffer with_buffer].
    now rewrite list_insert_insert_eq.
  - destruct Hwf as [Hlen Hall].
    unfold HT16K33Segment.set_colon,
      HT16K33Segment.HT16K33_SEGMENT_COLON_ROW.
    rewrite (bind_return _ _ s tt _
               (setitem_run 4 _ s ltac:(rewrite Hlen; lia) Hcolon)).
    rewrite (bind_return _ _ s tt _ Hrun1).
    destruct (set_glyph7_run g1 d dot1 (with_buffer s
                (<[Z.to_nat 4 := if is_set then 0x02 else 0x00]>
                   (buffer s)))) as (p3 & Hp3 & _ & Hrun3);
      [apply wf_buffer_insert; done | done | done |].
    assert (p3 = p) as -> by congruence.
    rewrite Hrun3, setitem_run;
      [| cbn [buffer with_buffer]; rewrite length_insert, Hlen; lia | done].
    cbn [buffer with_buffer]. rewrite with_buffer_twice. f_equal. f_equal.
    apply list_insert_insert_ne.
    apply digit_cases in Hd.
    repeat destruct Hd as [-> | Hd]; try subst d;
      injection Hp as <-; lia.
Qed.

Lemma set_glyph_7segment_overwrites_witness :
  wf_buffer (buffer (HT16K33Segment.new [] 0x70).2) ∧ 0 ≤ 1 < 4
  ∧ 0 ≤ 0x7F < 0x80 ∧ 0 ≤ 0x06 < 0x80
  ∧ (HT16K33Segment.set_glyph 0x7F 1 true;;
     HT16K33Segment.set_glyph 0x06 1 false) (HT16K33Segment.new [] 0x70).2
    = HT16K33Segment.set_glyph 0x06 1 false (HT16K33Segment.new [] 0x70).2.
Proof.
  split; [apply wf_buffer_bytearray|]. split; [lia|].
  split; [lia|]. split; [lia|].
  apply (set_glyph_7segment_overwrites (HT16K33Segment.new [] 0x70).2
           0x7F 0x06 1 true false true);
    [apply wf_buffer_bytearray | lia | lia | lia].
Defined.

(** ** 7-segment driver: rotation comes back *)

(** [rotate] twice leaves the object as it was; and with the flag set, the
    layout transform that [draw] applies to the stored buffer undoes itself:
    after two [draw]s the buffer is as it was before the first, so the
    second [draw] sends the untransformed bytes. *)
Theorem rotation_round_trips (s : device) :
  wf_buffer (buffer s) →
  (HT16K33Segment.rotate;; HT16K33Segment.rotate) s = (Return tt, s)
  ∧ (is_rotated s = true →
     (HT16K33Segment.draw;; HT16K33Segment.draw) s
     = (Return tt,
        with_i2c s (i2c s ++ [(address s, 0 :: rotated (buffer s));
                              (address s, 0 :: buffer s)]))).
Proof.
  intros Hwf. split.
  - unfold HT16K33Segment.rotate, mbind, M_bind, modify.
    destruct s as [? ? ? ? ? ? r ?]. cbn. now rewrite negb_involutive.
  - intros Hrot.
    rewrite (bind_return _ _ s tt _ (draw_rotated_run s Hrot Hwf)).
    rewrite draw_rotated_run; [| done | apply wf_buffer_rotated, Hwf].
    cbn [buffer with_buffer with_i2c]. rewrite rotated_involutive by done.
    destruct s. cbn. now rewrite <- app_assoc.
Qed.

Lemma rotation_round_trips_witness :
  wf_buffer (buffer (HT16K33Segment.new [] 0x70).2)
  ∧ (HT16K33Segment.rotate;; HT16K33Segment.rotate)
      (HT16K33Segment.new [] 0x70).2
    = (Return tt, (HT16K33Segment.new [] 0x70).2).
Proof.
  split; [apply wf_buffer_bytearray|].
  apply (rotation_round_trips (HT16K33Segment.new [] 0x70).2).
  apply wf_buffer_bytearray.
Defined.

(** ** 14-segment driver, VK16K33 wiring: glyphs add up *)

Lemma set_digit_vk_run v d has_dot s :
  is_ht16k33 s = false → wf_buffer (buffer s) → 0 ≤ d < 4 →
  0 ≤ v < 0x8000 →
  HT16K33Segment14._set_digit v d has_dot s
  = (Return tt, with_buffer s (prescribed v d (buffer s))).
Proof.
  intros Hh Hwf Hd Hv. unfold HT16K33Segment14._set_digit.
  rewrite (bind_return _ _ s false s) by (unfold get; now rewrite Hh).
  now rewrite (bind_return _ _ s _ _
                 (vk16k33_loop_run v d s Hwf Hd (testbit_15_clear v Hv))).
Qed.

Lemma set_glyph_vk_run g d has_dot s :
  is_ht16k33 s = false → wf_buffer (buffer s) → 0 ≤ d < 4 →
  0 ≤ g < 0x8000 →
  HT16K33Segment14.set_glyph g d has_dot s
  = (Return tt, with_buffer s (prescribed g d (buffer s))).
Proof.
  intros Hh Hwf Hd Hg. unfold HT16K33Segment14.set_glyph.
  rewrite (bind_return _ _ s tt s)
    by (apply assert_true, in_range_true; lia).
  rewrite (bind_return _ _ s tt s)
    by (apply assert_true, in_range_true; lia).
  now apply set_digit_vk_run.
Qed.

Lemma wf_prescribed v d buf :
  wf_buffer buf → 0 ≤ d < 4 → 0 ≤ v < 0x8000 →
  wf_buffer (prescribed v d buf).
Proof.
  intros Hwf Hd Hv. apply wf_prescribed_turns; [done|].
  apply all_turns_ok; [done | now apply testbit_15_clear].
Qed.

Lemma lor_interchange a1 a2 m1 m2 :
  Z.lor (Z.lor a1 m1) (Z.lor a2 m2) = Z.lor (Z.lor a1 a2) (Z.lor m1 m2).
Proof.
  apply Z.bits_inj'. intros n Hn. rewrite !Z.lor_spec.
  now destruct (Z.testbit a1 n), (Z.testbit a2 n), (Z.testbit m1 n).
Qed.

Lemma turns_mask_lor v1 v2 d (j : nat) l :
  turns_mask (Z.lor v1 v2) d j l
  = Z.lor (turns_mask v1 d j l) (turns_mask v2 d j l).
Proof.
  induction l as [|[[i a] dm] l IH]; [done|].
  unfold turns_mask in *. cbn [foldr]. rewrite IH, lor_interchange.
  f_equal. cbn [turn_mask]. rewrite Z.lor_spec.
  destruct (Z.to_nat a =? j)%nat, (Z.testbit v1 i), (Z.testbit v2 i);
    cbn [andb orb]; now rewrite ?Z.lor_diag, ?Z.lor_0_r, ?Z.lor_0_l.
Qed.

Lemma prescribed_lor v1 v2 d buf :
  prescribed v2 d (prescribed v1 d buf) = prescribed (Z.lor v1 v2) d buf.
Proof.
  apply list_eq. intros j. unfold prescribed.
  rewrite !lookup_prescribed_turns, turns_mask_lor.
  destruct (buf !! j); [|done]. cbn [fmap option_fmap option_map].
  now rewrite Z.lor_assoc.
Qed.

Lemma land_lor_absorb b m : Z.land (Z.lor b m) b = b.
Proof.
  apply Z.bits_inj'. intros n Hn. rewrite Z.land_spec, Z.lor_spec.
  now destruct (Z.testbit b n), (Z.testbit m n).
Qed.

(** With [is_ht16k33=False] the digit writer only ever ORs markers into the
    buffer: a glyph written over another on the same digit shows the
    segments of both (the result is that of writing [g1 | g2] once),
    writing a glyph twice is writing it once, and no bit that was set in the
    buffer is cleared - only [clear] removes segments. *)
Theorem vk16k33_glyphs_accumulate (s : device) (g1 g2 d : Z)
        (dot1 dot2 : bool) :
  is_ht16k33 s = false → wf_buffer (buffer s) → 0 ≤ d < 4 →
  0 ≤ g1 < 0x8000 → 0 ≤ g2 < 0x8000 →
  (HT16K33Segment14.set_glyph g1 d dot1;;
   HT16K33Segment14.set_glyph g2 d dot2) s
  = HT16K33Segment14.set_glyph (Z.lor g1 g2) d dot1 s
  ∧ (HT16K33Segment14.set_glyph g1 d dot1;;
     HT16K33Segment14.set_glyph g1 d dot2) s
    = HT16K33Segment14.set_glyph g1 d dot1 s
  ∧ ∀ (j : nat) b b',
      buffer s !! j = Some b →
      buffer (HT16K33Segment14.set_glyph g1 d dot1 s).2 !! j = Some b' →
      Z.land b' b = b.
Proof.
  intros Hh Hwf Hd Hg1 Hg2.
  pose proof (set_glyph_vk_run g1 d dot1 s Hh Hwf Hd Hg1) as Hrun1.
  assert (Hseq : ∀ g dot,
             0 ≤ g < 0x8000 →
             (HT16K33Segment14.set_glyph g1 d dot1;;
              HT16K33Segment14.set_glyph g d dot) s
             = HT16K33Segment14.set_glyph (Z.lor g1 g) d dot1 s).
  { intros g dot Hg.
    rewrite (bind_return _ _ s tt _ Hrun1).
    rewrite set_glyph_vk_run;
      [| done | now apply wf_prescribed | done | done].
    rewrite set_glyph_vk_run;
      [| done | done | done
       | apply (lor_below_pow2 g1 g 15);
         change (2 ^ 15) with 0x8000; lia].
    cbn [buffer with_buffer]. now rewrite with_buffer_twice, prescribed_lor. }
  split; [now apply Hseq|]. split.
  - rewrite (Hseq g1 dot2 Hg1). now rewrite Z.lor_diag.
  - intros j b b' Hb. rewrite Hrun1. cbn [snd buffer with_buffer].
    unfold prescribed. rewrite lookup_prescribed_turns, Hb.
    intros Hb'. apply (inj Some) in Hb'. rewrite <- Hb'.
    apply land_lor_absorb.
Qed.

Lemma vk16k33_glyphs_accumulate_witness :
  is_ht16k33 (HT16K33Segment14.new [] 0x70 false).2 = false
  ∧ wf_buffer (buffer (HT16K33Segment14.new [] 0x70 false).2)
  ∧ 0 ≤ 0 < 4 ∧ 0 ≤ 0x0006 < 0x8000 ∧ 0 ≤ 0x0039 < 0x8000
  ∧ (HT16K33Segment14.set_glyph 0x0006 0 false;;
     HT16K33Segment14.set_glyph 0x0039 0 false)
      (HT16K33Segment14.new [] 0x70 false).2
    = HT16K33Segment14.set_glyph 0x003F 0 false
        (HT16K33Segment14.new [] 0x70 false).2.
Proof.
  split; [reflexivity|]. split; [apply wf_buffer_bytearray|].
  split; [lia|]. split; [lia|]. split; [lia|].
  apply (vk16k33_glyphs_accumulate (HT16K33Segment14.new [] 0x70 false).2
           0x0006 0x0039 0 false false);
    [reflexivity | apply wf_buffer_bytearray | lia | lia | lia].
Defined.

(** ** 14-segment driver, VK16K33 wiring: reading a glyph back *)









(** ** 14-segment driver, HT16K33 wiring: reading a glyph back *)

Lemma set_digit_ht_run v d (has_dot : bool) s :
  is_ht16k33 s = true → wf_buffer (buffer s) → 0 ≤ d < 4 →
  0 ≤ v < 0xFFFF →
  let value := if has_dot then Z.lor v 0x4000 else v in
  0 ≤ value < 65536
  ∧ HT16K33Segment14._set_digit v d has_dot s
    = (Return tt,
       with_buffer s
         (<[Z.to_nat (2 * d) := value mod 256]>
            (<[Z.to_nat (2 * d + 1) :=
                 HT16K33Segment14.swap_b11_b13 (value / 256)]> (buffer s)))).
Proof.
  intros Hh [Hlen Hall] Hd Hv value.
  assert (Hvalue : 0 ≤ value < 65536).
  { subst value. destruct has_dot; [|lia].
    apply (lor_below_pow2 v 0x4000 16); change (2 ^ 16) with 65536; lia. }
  split; [done|].
  assert (Hbm : is_byte (value / 256)).
  { split; [apply Z.div_pos; lia|]. apply Z.div_lt_upper_bound; lia. }
  assert (Hlsb : Z.land value 0xFF = value mod 256).
  { change 0xFF with (Z.ones 8). now rewrite Z.land_ones by lia. }
  assert (Hmsb : Z.land (Z.shiftr value 8) 0xFF = value / 256).
  { change 0xFF with (Z.ones 8).
    rewrite Z.land_ones, Z.shiftr_div_pow2 by lia.
    apply Z.mod_small, Hbm. }
  unfold HT16K33Segment14._set_digit.
  rewrite (bind_return _ _ s true s) by (unfold get; now rewrite Hh).
  cbv zeta. unfold HT16K33Segment14.HT16K33_SEG14_DP_VALUE.
  change (if has_dot then Z.lor v 0x4000 else v) with value.
  rewrite Hlsb, Hmsb.
  assert (Hsh : Z.shiftl d 1 = 2 * d)
    by (rewrite Z.shiftl_mul_pow2 by lia; lia).
  rewrite Hsh.
  assert (Hswap : is_byte (HT16K33Segment14.swap_b11_b13 (value / 256))).
  { apply (permutes_bits_byte _ exchange_3_5 _ swap_b11_b13_permutes);
      [|done].
    intros n Hn. unfold exchange_3_5.
    destruct (Z.eqb_spec n 3), (Z.eqb_spec n 5); lia. }
  rewrite (bind_return _ _ s tt _
             (setitem_run (2 * d + 1) _ s ltac:(rewrite Hlen; lia) Hswap)).
  apply setitem_run; [|apply Z.mod_pos_bound; lia].
  cbn [buffer with_buffer]. rewrite length_insert, Hlen. lia.
Qed.

Lemma set_glyph_ht_run g d has_dot s :
  is_ht16k33 s = true → wf_buffer (buffer s) → 0 ≤ d < 4 →
  0 ≤ g < 0xFFFF →
  HT16K33Segment14.set_glyph g d has_dot s
  = HT16K33Segment14._set_digit g d has_dot s.
Proof.
  intros Hh Hwf Hd Hg. unfold HT16K33Segment14.set_glyph.
  rewrite (bind_return _ _ s tt s)
    by (apply assert_true, in_range_true; lia).
  now rewrite (bind_return _ _ s tt s)
    by (apply assert_true, in_range_true; lia).
Qed.

Lemma swap_b11_b13_involutive h :
  is_byte h →
  HT16K33Segment14.swap_b11_b13 (HT16K33Segment14.swap_b11_b13 h) = h.
Proof.
  intros Hh.
  assert (H : forallb (λ b, HT16K33Segment14.swap_b11_b13
                              (HT16K33Segment14.swap_b11_b13 b) =? b)
                      (range 0 256) = true) by (vm_compute; reflexivity).
  rewrite forallb_forall in H. apply Z.eqb_eq, H, elem_of_range, Hh.
Qed.

(** Round trip of a glyph with [is_ht16k33=True]: after [set_glyph] with a
    digit in [0, 4) and a glyph in [0, 0xFFFF), the two bytes of the digit
    give the value back (the glyph, with 0x4000 for the dot) once bits 3 and
    5 of the second byte are swapped back; no other byte changes; and,
    unlike under the other wiring, a later glyph on the same digit replaces
    the earlier one. *)
Theorem ht16k33_round_trip (s : device) (g g0 d : Z) (has_dot dot0 : bool) :
  is_ht16k33 s = true → wf_buffer (buffer s) → 0 ≤ d < 4 →
  0 ≤ g < 0xFFFF → 0 ≤ g0 < 0xFFFF →
  ∃ lsb msb buf',
    HT16K33Segment14.set_glyph g d has_dot s = (Return tt, with_buffer s buf')
    ∧ buf' !! Z.to_nat (2 * d) = Some lsb
    ∧ buf' !! Z.to_nat (2 * d + 1) = Some msb
    ∧ HT16K33Segment14.swap_b11_b13 msb * 256 + lsb
      = (if has_dot then Z.lor g 0x4000 else g)
    ∧ (∀ j : nat, j ≠ Z.to_nat (2 * d) → j ≠ Z.to_nat (2 * d + 1) →
                  buf' !! j = buffer s !! j)
    ∧ (HT16K33Segment14.set_glyph g0 d dot0;;
       HT16K33Segment14.set_glyph g d has_dot) s
      = (Return tt, with_buffer s buf').
Proof.
  intros Hh Hwf Hd Hg Hg0.
  destruct (set_digit_ht_run g d has_dot s Hh Hwf Hd Hg) as [Hvalue Hrun].
  destruct (set_digit_ht_run g0 d dot0 s Hh Hwf Hd Hg0) as [Hvalue0 Hrun0].
  set (value := if has_dot then Z.lor g 0x4000 else g) in *.
  set (value0 := if dot0 then Z.lor g0 0x4000 else g0) in *.
  assert (Hbm : ∀ x, 0 ≤ x < 65536 → is_byte (x / 256)).
  { intros x Hx. split; [apply Z.div_pos; lia|].
    apply Z.div_lt_upper_bound; lia. }
  assert (Hswap : ∀ x, 0 ≤ x < 65536 →
             is_byte (HT16K33Segment14.swap_b11_b13 (x / 256))).
  { intros x Hx.
    apply (permutes_bits_byte _ exchange_3_5 _ swap_b11_b13_permutes);
      [|now apply Hbm].
    intros n Hn. unfold exchange_3_5.
    destruct (Z.eqb_spec n 3), (Z.eqb_spec n 5); lia. }
  pose proof Hwf as [Hlen Hall].
  eexists (value mod 256), (HT16K33Segment14.swap_b11_b13 (value / 256)), _.
  split; [rewrite set_glyph_ht_run by done; exact Hrun|].
  split; [apply list_lookup_insert_eq; rewrite length_insert; lia|].
  split.
  { rewrite list_lookup_insert_ne by lia.
    apply list_lookup_insert_eq. lia. }
  split.
  { rewrite swap_b11_b13_involutive by now apply Hbm.
    pose proof (Z.div_mod value 256). lia. }
  split.
  { intros j H1 H2. now rewrite !list_lookup_insert_ne by done. }
  rewrite <- (set_glyph_ht_run g0 d dot0 s Hh Hwf Hd Hg0) in Hrun0.
  rewrite (bind_return _ _ s tt _ Hrun0).
  assert (Hwf0 : wf_buffer
                   (<[Z.to_nat (2 * d) := value0 mod 256]>
                      (<[Z.to_nat (2 * d + 1) :=
                           HT16K33Segment14.swap_b11_b13 (value0 / 256)]>
                         (buffer s)))).
  { apply wf_buffer_insert;
      [apply wf_buffer_insert; [done | now apply Hswap]
      | apply Z.mod_pos_bound; lia]. }
  rewrite set_glyph_ht_run by done.
  destruct (set_digit_ht_run g d has_dot
              (with_buffer s
                 (<[Z.to_nat (2 * d) := value0 mod 256]>
                    (<[Z.to_nat (2 * d + 1) :=
                         HT16K33Segment14.swap_b11_b13 (value0 / 256)]>
                       (buffer s))))) as [_ Hrun2]; [done..|].
  rewrite Hrun2. cbn [buffer with_buffer]. rewrite with_buffer_twice.
  f_equal. f_equal. fold value.
  rewrite (list_insert_insert_ne _ (Z.to_nat (2 * d + 1)) (Z.to_nat (2 * d)))
    by lia.
  now rewrite !list_insert_insert_eq.
Qed.

Lemma ht16k33_round_trip_witness :
  is_ht16k33 (HT16K33Segment14.new [] 0x70 true).2 = true
  ∧ wf_buffer (buffer (HT16K33Segment14.new [] 0x70 true).2)
  ∧ 0 ≤ 3 < 4 ∧ 0 ≤ 0x2809 < 0xFFFF ∧ 0 ≤ 0x00FF < 0xFFFF
  ∧ ∃ lsb msb buf',
      HT16K33Segment14.set_glyph 0x2809 3 true
        (HT16K33Segment14.new [] 0x70 true).2
      = (Return tt, with_buffer (HT16K33Segment14.new [] 0x70 true).2 buf')
      ∧ buf' !! Z.to_nat (2 * 3) = Some lsb
      ∧ buf' !! Z.to_nat (2 * 3 + 1) = Some msb
      ∧ HT16K33Segment14.swap_b11_b13 msb * 256 + lsb = 0x6809
      ∧ (∀ j : nat, j ≠ Z.to_nat (2 * 3) → j ≠ Z.to_nat (2 * 3 + 1) →
                    buf' !! j
                    = buffer (HT16K33Segment14.new [] 0x70 true).2 !! j)
      ∧ (HT16K33Segment14.set_glyph 0x00FF 3 false;;
         HT16K33Segment14.set_glyph 0x2809 3 true)
          (HT16K33Segment14.new [] 0x70 true).2
        = (Return tt, with_buffer (HT16K33Segment14.new [] 0x70 true).2 buf').
Proof.
  split; [reflexivity|]. split; [apply wf_buffer_bytearray|].
  split; [lia|]. split; [lia|]. split; [lia|].
  apply (ht16k33_round_trip (HT16K33Segment14.new [] 0x70 true).2
           0x2809 0x00FF 3 true false);
    [reflexivity | apply wf_buffer_bytearray | lia | lia | lia].
Defined.

(** ** 14-segment driver: characters, numbers and codes *)

Lemma set_code_run code d has_dot s :
  0 ≤ d < 4 → 0 ≤ code < 76 →
  ∃ g, HT16K33Segment14.charset_glyph code s = (Return g, s)
       ∧ 0 ≤ g < 0x4000
       ∧ HT16K33Segment14.set_code code d has_dot s
         = HT16K33Segment14._set_digit g d has_dot s.
Proof.
  intros Hd Hc. destruct (charset_glyph_run code s Hc) as (g & Hg & Hg').
  exists g. split; [done|]. split; [done|].
  unfold HT16K33Segment14.set_code.
  rewrite (bind_return _ _ s tt s)
    by (apply assert_true, in_range_true, Hd).
  rewrite (bind_return _ _ s tt s)
    by (apply assert_true, in_range_true, Hc).
  now rewrite (bind_return _ _ s g s Hg).
Qed.

Lemma set_digit_succeeds g d has_dot s :
  wf_buffer (buffer s) → 0 ≤ d < 4 → 0 ≤ g < 0x4000 →
  ∃ buf', wf_buffer buf'
          ∧ HT16K33Segment14._set_digit g d has_dot s
            = (Return tt, with_buffer s buf').
Proof.
  intros Hwf Hd Hg. destruct (is_ht16k33 s) eqn:Hh.
  - destruct (set_digit_ht_run g d has_dot s Hh Hwf Hd ltac:(lia))
      as [Hvalue Hrun].
    eexists. split; [|exact Hrun].
    destruct (buffer_only_set_digit g d has_dot s Hwf) as (buf' & Hb & Hwf').
    rewrite Hrun in Hb. cbn [snd] in Hb.
    apply (f_equal buffer) in Hb. cbn [buffer with_buffer] in Hb.
    now rewrite Hb.
  - exists (prescribed g d (buffer s)).
    split; [apply wf_prescribed; (done || lia)|].
    apply set_digit_vk_run; (done || lia).
Qed.

(** Every string with a charset index is displayed: under either wiring
    [set_character] returns, with a 16-byte buffer, for every digit in
    [0, 4) - no entry of the table reaches the out-of-bounds write of
    bit 15 - and it does exactly what [set_code] does with that index. *)
Theorem set_character14_is_set_code (s : device) (char : string) (k d : Z)
        (has_dot : bool) :
  wf_buffer (buffer s) → 0 ≤ d < 4 → spec_index14 char = Some k →
  (∃ buf', wf_buffer buf'
           ∧ HT16K33Segment14.set_character char d has_dot s
             = (Return tt, with_buffer s buf'))
  ∧ HT16K33Segment14.set_character char d has_dot s
    = HT16K33Segment14.set_code k d has_dot s.
Proof.
  intros Hwf Hd Hk.
  destruct (set_character14_run char k d has_dot s Hd Hk)
    as (g & Hg & Hrange & Hrun).
  destruct (set_code_run k d has_dot s Hd (spec_index14_range _ _ Hk))
    as (g' & Hg' & _ & Hrun').
  assert (g' = g) as -> by congruence.
  split; [|congruence].
  rewrite Hrun. now apply set_digit_succeeds.
Qed.

Lemma set_character14_is_set_code_witness :
  wf_buffer (buffer (HT16K33Segment14.new [] 0x70 false).2) ∧ 0 ≤ 0 < 4
  ∧ spec_index14 "z" = Some 61
  ∧ HT16K33Segment14.set_character "z" 0 false
      (HT16K33Segment14.new [] 0x70 false).2
    = HT16K33Segment14.set_code 61 0 false
        (HT16K33Segment14.new [] 0x70 false).2.
Proof.
  split; [apply wf_buffer_bytearray|]. split; [lia|].
  split; [reflexivity|].
  apply (set_character14_is_set_code (HT16K33Segment14.new [] 0x70 false).2
           "z" 61 0 false); [apply wf_buffer_bytearray | lia | reflexivity].
Defined.

(** On the 14-segment driver the digits are the first ten codes: for a
    number in [0, 10) and a digit in [0, 4), [set_number] does what
    [set_code] does with the number as the code. *)
Theorem set_number14_is_set_code (s : device) (number d : Z)
        (has_dot : bool) :
  0 ≤ d < 4 → 0 ≤ number < 10 →
  HT16K33Segment14.set_number number d has_dot s
  = HT16K33Segment14.set_code number d has_dot s.
Proof.
  intros Hd Hn. destruct (str_digit_index number Hn) as [_ Hidx].
  destruct (set_character14_run _ number d has_dot s Hd Hidx)
    as (g & Hg & _ & Hrun).
  destruct (set_code_run number d has_dot s Hd ltac:(lia))
    as (g' & Hg' & _ & Hrun').
  assert (g' = g) as -> by congruence.
  rewrite Hrun', <- Hrun. unfold HT16K33Segment14.set_number.
  rewrite (bind_return _ _ s tt s)
    by (apply assert_true, in_range_true, Hd).
  now rewrite (bind_return _ _ s tt s)
    by (apply assert_true, in_range_true, Hn).
Qed.

Lemma set_number14_is_set_code_witness :
  0 ≤ 2 < 4 ∧ 0 ≤ 9 < 10
  ∧ HT16K33Segment14.set_number 9 2 true
      (HT16K33Segment14.new [] 0x70 true).2
    = HT16K33Segment14.set_code 9 2 true
        (HT16K33Segment14.new [] 0x70 true).2.
Proof.
  split; [lia|]. split; [lia|].
  apply (set_number14_is_set_code (HT16K33Segment14.new [] 0x70 true).2
           9 2 true); lia.
Defined.

(** ** 14-segment driver: the decimal point cannot be switched off *)

(** With [is_ht16k33=False], [set_decimal(False)] after [set_decimal(True)]
    leaves bit 0 of buffer byte 3 set: the mask 0x7F clears bit 7, not the
    bit that was set.  [set_colon(False)] after [set_colon(True)] does clear
    bit 0 of byte 1. *)
Theorem set_decimal_not_undone (s : device) :
  is_ht16k33 s = false → wf_buffer (buffer s) →
  ∃ b1 b3,
    buffer s !! 1%nat = Some b1 ∧ buffer s !! 3%nat = Some b3
    ∧ (HT16K33Segment14.set_decimal true;;
       HT16K33Segment14.set_decimal false) s
      = (Return tt,
         with_buffer s (<[3%nat := Z.land (Z.lor b3 0x01) 0x7F]> (buffer s)))
    ∧ Z.testbit (Z.land (Z.lor b3 0x01) 0x7F) 0 = true
    ∧ (HT16K33Segment14.set_colon true;;
       HT16K33Segment14.set_colon false) s
      = (Return tt,
         with_buffer s (<[1%nat := Z.land (Z.lor b1 0x01) 0xFE]> (buffer s)))
    ∧ Z.testbit (Z.land (Z.lor b1 0x01) 0xFE) 0 = false.
Proof.
  intros Hh Hwf.
  destruct (wf_buffer_lookup _ 1 Hwf) as (b1 & Hb1 & Hr1); [lia|].
  destruct (wf_buffer_lookup _ 3 Hwf) as (b3 & Hb3 & Hr3); [lia|].
  destruct Hwf as [Hlen Hall].
  exists b1, b3. split; [done|]. split; [done|].
  assert (Hor : ∀ b, is_byte b → is_byte (Z.lor b 0x01))
    by (intros b Hb; apply is_byte_lor; [done | unfold is_byte; lia]).
  assert (Hflag : ∀ s' : device,
             is_ht16k33 s' = false →
             ∀ k : bool → M unit, (get is_ht16k33 ≫= k) s' = k false s').
  { intros s' Hs' k. apply bind_return. unfold get. now rewrite Hs'. }
  unfold HT16K33Segment14.set_decimal, HT16K33Segment14.set_colon,
    HT16K33Segment14.VK16K33_SEG14_COLON_BYTE,
    HT16K33Segment14.VK16K33_SEG14_DECIMAL_BYTE.
  repeat split.
  - erewrite bind_return;
      [| rewrite Hflag by done; now apply (ior_item_run 3 0x01 b3); auto].
    rewrite Hflag by done.
    rewrite (iand_item_run 3 0x7F (Z.lor b3 0x01));
      [| lia | apply list_lookup_insert_eq; lia
       | apply is_byte_land; unfold is_byte; lia].
    cbn [buffer with_buffer].
    now rewrite with_buffer_twice, list_insert_insert_eq.
  - rewrite Z.land_spec, Z.lor_spec.
    change (Z.testbit 1 0) with true. change (Z.testbit 0x7F 0) with true.
    now rewrite orb_true_r.
  - erewrite bind_return;
      [| rewrite Hflag by done; now apply (ior_item_run 1 0x01 b1); auto].
    rewrite Hflag by done.
    rewrite (iand_item_run 1 0xFE (Z.lor b1 0x01));
      [| lia | apply list_lookup_insert_eq; lia
       | apply is_byte_land; unfold is_byte; lia].
    cbn [buffer with_buffer].
    now rewrite with_buffer_twice, list_insert_insert_eq.
  - rewrite Z.land_spec. change (Z.testbit 0xFE 0) with false.
    apply andb_false_r.
Qed.

Lemma set_decimal_not_undone_witness :
  is_ht16k33 (HT16K33Segment14.new [] 0x70 false).2 = false
  ∧ wf_buffer (buffer (HT16K33Segment14.new [] 0x70 false).2)
  ∧ (HT16K33Segment14.set_decimal true;; HT16K33Segment14.set_decimal false)
      (HT16K33Segment14.new [] 0x70 false).2
    = (Return tt,
       with_buffer (HT16K33Segment14.new [] 0x70 false).2
         [0; 0; 0; 1; 0; 0; 0; 0; 0; 0; 0; 0; 0; 0; 0; 0]).
Proof.
  split; [reflexivity|]. split; [apply wf_buffer_bytearray|].
  destruct (set_decimal_not_undone (HT16K33Segment14.new [] 0x70 false).2
              eq_refl wf_buffer_bytearray)
    as (b1 & b3 & _ & H3 & Hrun & _).
  injection H3 as <-. exact Hrun.
Defined.
